(** * Reddit persona generator ([main.py]): model and verified properties

    The program is a linear pipeline: the URL parser [extract_username], the
    content fetcher [fetch_user_content], the prompt builder [build_prompt],
    the persona generator [call_gemini_api] and the writer [save_persona]
    with its heading normaliser [post_process_persona], driven by [run] and
    [main].

    Python's [str] is a sequence of Unicode code points: a character is its
    code point in [N] and a string is a list of them, so that [len], slicing
    and the one-character ellipsis count what Python counts. *)

From Stdlib Require Import ZArith NArith List Bool Lia.
From Stdlib Require String Ascii.
From stdpp Require Import base option countable gmap.
Import ListNotations.
Import String.StringSyntax.

Local Open Scope string_scope.
Local Open Scope N_scope.
Local Open Scope list_scope.

Abbreviation char := N (only parsing).
Abbreviation str := (list N) (only parsing).

(** An ASCII literal of the source, as code points. *)
Definition lit (s : String.string) : str :=
  List.map Ascii.N_of_ascii (String.list_ascii_of_string s).

(** ** Exceptions and results *)

Inductive exn : Type :=
| ValueError (msg : str)
| KeyError (msg : str)
| OSError (msg : str)            (* [IOError] is an alias of [OSError] *)
| RequestException               (* prawcore: network failure *)
| TooManyRequests                (* prawcore: rate limit *)
| Forbidden                      (* prawcore: suspended or private account *)
| NotFound                       (* prawcore: no such account *)
| OtherException (name : str)    (* any other subclass of [Exception] *)
| KeyboardInterrupt
| SystemExit (code : Z).

(** [isinstance(e, Exception)]: everything but the two [BaseException]s. *)
Definition is_Exception (e : exn) : bool :=
  match e with
  | KeyboardInterrupt | SystemExit _ => false
  | _ => true
  end.

(** [isinstance(e, IOError)] *)
Definition is_IOError (e : exn) : bool :=
  match e with OSError _ => true | _ => false end.

Definition is_ValueError (e : exn) : bool :=
  match e with ValueError _ => true | _ => false end.

Inductive result (A : Type) : Type :=
| Ok (a : A)
| Raise (e : exn).
Arguments Ok {A} a.
Arguments Raise {A} e.

(** ** Python string primitives used by the program *)

Module Py.

Definition in_range (lo hi c : char) : bool := (lo <=? c) && (c <=? hi).

(** [str.isspace] for one code point: the ASCII table of the interpreter
    (tab to carriage return, the four separators 0x1C-0x1F, space) and the
    Unicode white-space code points beyond ASCII. *)
Definition isspace (c : char) : bool :=
  in_range 9 13 c || in_range 28 32 c
  || (c =? 133) || (c =? 160) || (c =? 5760)
  || in_range 8192 8202 c || (c =? 8232) || (c =? 8233)
  || (c =? 8239) || (c =? 8287) || (c =? 12288).

(** [sep.join(parts)] *)
Fixpoint join (sep : str) (parts : list str) : str :=
  match parts with
  | [] => []
  | [x] => x
  | x :: rest => x ++ sep ++ join sep rest
  end.

(** [s.replace(old, new)] for one-character [old] and [new]. *)
Definition replace (old new : char) (s : str) : str :=
  List.map (fun c => if c =? old then new else c) s.

Fixpoint lstrip (s : str) : str :=
  match s with
  | c :: s' => if isspace c then lstrip s' else s
  | [] => []
  end.

Definition rstrip (s : str) : str := rev (lstrip (rev s)).

(** [s.strip()] *)
Definition strip (s : str) : str := rstrip (lstrip s).

(** Split at the last occurrence of [sep], when there is one. *)
Fixpoint split_last (sep : char) (s : str) : option (str * str) :=
  match s with
  | [] => None
  | c :: s' =>
      match split_last sep s' with
      | Some (a, b) => Some (c :: a, b)
      | None => if c =? sep then Some ([], s') else None
      end
  end.

(** [s.rsplit(sep, 1)] for a one-character [sep]. *)
Definition rsplit1 (sep : char) (s : str) : list str :=
  match split_last sep s with
  | Some (a, b) => [a; b]
  | None => [s]
  end.

(** [s.split("\n")]: the lines of a text, as the multi-line anchor sees them. *)
Fixpoint lines (s : str) : list str :=
  match s with
  | [] => [[]]
  | c :: s' =>
      if c =? 10 then [] :: lines s'
      else match lines s' with
           | l :: ls => (c :: l) :: ls
           | [] => [[c]]
           end
  end.

(** [template.format] with keyword arguments [kw], for a template whose
    replacement fields are plain names ([{name}], no doubled brace,
    conversion or format spec, as in [PROMPT_TEMPLATE]).  [field] is the name
    being read inside braces.  A name that is no keyword raises [KeyError],
    an unbalanced brace [ValueError]. *)
Fixpoint format_go (kw : gmap str str) (field : option str) (tpl : str)
  : result str :=
  match tpl with
  | [] =>
      match field with
      | None => Ok []
      | Some _ => Raise (ValueError (lit "expected '}' before end of string"))
      end
  | c :: t =>
      match field with
      | None =>
          if c =? 123 then format_go kw (Some []) t
          else if c =? 125 then
            Raise (ValueError (lit "Single '}' encountered in format string"))
          else
            match format_go kw None t with
            | Ok r => Ok (c :: r)
            | Raise e => Raise e
            end
      | Some name =>
          if c =? 125 then
            match kw !! name with
            | Some v =>
                match format_go kw None t with
                | Ok r => Ok (v ++ r)
                | Raise e => Raise e
                end
            | None => Raise (KeyError name)
            end
          else format_go kw (Some (name ++ [c])) t
      end
  end.

Definition format (tpl : str) (kw : gmap str str) : result str :=
  format_go kw None tpl.

(** *** Regular-expression pieces *)

(** A greedy character-class run: the longest prefix in the class, and the
    rest. *)
Fixpoint span (p : char -> bool) (s : str) : str * str :=
  match s with
  | c :: s' =>
      if p c then let '(a, b) := span p s' in (c :: a, b) else ([], s)
  | [] => ([], [])
  end.

(** A literal at the current position: the rest of the subject after it. *)
Fixpoint literal (p s : str) : option str :=
  match p with
  | [] => Some s
  | a :: p' =>
      match s with
      | c :: s' => if c =? a then literal p' s' else None
      | [] => None
      end
  end.

(** [re.search]: the pattern (a matcher at one position) is tried at every
    position from the left, the end of the subject included. *)
Fixpoint search {A} (m : str -> option A) (s : str) : option A :=
  match m s with
  | Some r => Some r
  | None => match s with
            | [] => None
            | _ :: s' => search m s'
            end
  end.

(** [re.sub(pattern, repl, text, flags=re.MULTILINE)] for a pattern anchored
    by [^] that matches no empty string: scanning from the left, the pattern
    is tried where a line begins ([bol]: position 0 or just after a newline);
    a match [(g, rest)] is replaced by [repl g] and the scan goes on after it
    (not at a line start: a match holds no newline here), any other character
    is copied.  Each step consumes a character, so the length of the text is
    fuel enough. *)
Fixpoint sub_from (m : str -> option (str * str)) (repl : str -> str)
  (fuel : nat) (bol : bool) (s : str) : str :=
  match fuel with
  | O => s
  | S fuel' =>
      match s with
      | [] => []
      | c :: s' =>
          match (if bol then m s else None) with
          | Some (g, rest) => repl g ++ sub_from m repl fuel' false rest
          | None => c :: sub_from m repl fuel' (c =? 10) s'
          end
      end
  end.

Definition sub_multiline (m : str -> option (str * str)) (repl : str -> str)
  (text : str) : str :=
  sub_from m repl (length text) true text.

End Py.

(** ** Configuration *)

Definition DEFAULT_POST_LIMIT : Z := 20.
Definition DEFAULT_COMMENT_LIMIT : Z := 20.
Definition MODEL_NAME : str := lit "gemini-1.5-flash".
Definition PROMPT_TEMPLATE : str := lit "
Analyze the following Reddit user's posts and comments to generate a detailed user persona.
For each trait or insight, cite the source post or comment (full text or snippet) in the format: [source: ...].

User: {username}

Posts:
{posts_section}

Comments:
{comments_section}

Output format example:
User Persona: {username}

**Personality:** ... [source: ...]
**Interests:** ... [source: ...]
**Tone:** ... [source: ...]
**Values & Communication:** ... [source: ...]

Be concise but insightful.
".

(** ** Core functions: the URL parser *)

Section UrlParser.

(** [\w] on a [str] pattern is Unicode-aware.  On ASCII it is
    [[A-Za-z0-9_]]; beyond ASCII it is the interpreter's Unicode
    alphanumeric property ([str.isalnum] of the character), a table of the
    Unicode database that the development takes as a parameter. *)
Variable unicode_alnum : char -> bool.

Definition is_word (c : char) : bool :=
  if c <? 128 then
    Py.in_range 97 122 c || Py.in_range 65 90 c || Py.in_range 48 57 c
    || (c =? 95)
  else unicode_alnum c.

(** The class [[\w-]]. *)
Definition is_name_char (c : char) : bool := is_word c || (c =? 45).

(** The pattern [reddit\.com/user/([\w-]+)/?] tried at one position; the
    result is group 1.  The class run is greedy and what follows it, [/?],
    matches whatever comes next, so the engine never backtracks into the
    run: group 1 is the longest run, and the match fails only when the
    literal is absent or the run is empty. *)
Definition match_profile (s : str) : option str :=
  match Py.literal (lit "reddit.com/user/") s with
  | Some rest =>
      let '(name, _) := Py.span is_name_char rest in
      match name with
      | [] => None
      | _ :: _ => Some name
      end
  | None => None
  end.

Definition extract_username (url : str) : result str :=
  match Py.search match_profile url with
  | None => Raise (ValueError (lit "Invalid Reddit profile URL: " ++ url))
  | Some group1 => Ok group1
  end.

End UrlParser.

(** ** Core functions: the prompt builder *)

(** A fetched item is a Python dict from field name to text. *)
Abbreviation dict := (gmap (list N) (list N)) (only parsing).

(** Truthiness of [item.get(k)]: present and not empty. *)
Definition truthy (v : option str) : bool :=
  match v with
  | Some (_ :: _) => true
  | _ => false
  end.

(** Truthiness of a list: not empty. *)
Definition truthy_list {A} (l : list A) : bool :=
  match l with
  | [] => false
  | _ :: _ => true
  end.

(** The locals of the loop body of [section], for one item: the fields
    that are present and not empty, joined by spaces ... *)
Definition snippet (item : dict) (key_names : list str) : str :=
  Py.join (lit " ")
    (List.map (fun k => default [] (item !! k))
       (List.filter (fun k => truthy (item !! k)) key_names)).

(** ... with newlines turned into spaces and the ends trimmed ... *)
Definition clean (item : dict) (key_names : list str) : str :=
  Py.strip (Py.replace 10 32 (snippet item key_names)).

(** ... and cut when longer than 300 characters:
    [clean[:300].rsplit(" ", 1)[0] + "…"]. *)
Definition truncate (clean : str) : str :=
  if (300 <? length clean)%nat
  then hd [] (Py.rsplit1 32 (take 300 clean)) ++ [8230]
  else clean.

(** The line appended for one item. *)
Definition render_item (item : dict) (key_names : list str) : str :=
  lit "- " ++ truncate (clean item key_names).

Definition section (items : list dict) (key_names : list str) : str :=
  Py.join [10] (List.map (fun item => render_item item key_names) items).

Definition build_prompt (posts comments : list dict) (username : str)
  : result str :=
  let posts_section := section posts [lit "title"; lit "body"] in
  let comments_section := section comments [lit "body"] in
  Py.format PROMPT_TEMPLATE
    (<[lit "username" := username]>
       (<[lit "posts_section" := posts_section]>
          (<[lit "comments_section" := comments_section]> ∅))).

(** ** Core functions: the heading normaliser *)

(** The class [[A-Za-z &]]. *)
Definition is_heading_char (c : char) : bool :=
  Py.in_range 65 90 c || Py.in_range 97 122 c || (c =? 32) || (c =? 38).

(** The pattern [([A-Za-z &]+):] tried at one position (the anchor is the
    scanner's): group 1 and the rest of the subject after the colon.  The
    colon is outside the class, so a shorter run is never followed by one:
    the match is the longest run, when it is not empty and a colon follows. *)
Definition match_heading (s : str) : option (str * str) :=
  match Py.span is_heading_char s with
  | ((_ :: _) as g, c :: rest) => if c =? 58 then Some (g, rest) else None
  | _ => None
  end.

Definition repl (group1 : str) : str := lit "**" ++ group1 ++ lit ":**".

Definition post_process_persona (text : str) : str :=
  Py.sub_multiline match_heading repl text.

(** ** Effects: the outside world, the trace of a run, and control *)

(** What an iteration over a lazy listing of the platform client does: it
    yields items, then ends or raises. *)
Record listing (A : Type) : Type := {
  yielded : list A;
  failure : option exn
}.
Arguments yielded {A} l.
Arguments failure {A} l.

(** The outside world of one run: the environment (after [load_dotenv]),
    the social platform behind the client, the generative service and the
    file system.  Each is consulted at most once per run. *)
Record world : Type := {
  getenv : str -> option str;
  redditor : str -> option exn;
  submissions_new : str -> Z -> listing (str * str);   (* title, selftext *)
  comments_new : str -> Z -> listing str;               (* body *)
  generate_content : str -> str -> result str;          (* model, prompt *)
  write_file : str -> str -> option exn                 (* name, contents *)
}.

Inductive level : Type := INFO | ERROR.

Inductive message : Type :=
| MissingCredentials
| Fetched (posts comments : nat) (username : str)
| ErrorFetching (username : str) (e : exn)
| ApiKeyNotSet
| ApiCallFailed (e : exn)
| PersonaSaved (filename : str)
| WriteFailed (e : exn)
| NoContent (username : str)
| CallingApi
| InvalidUrl (e : exn).

Inductive func : Type :=
| f_extract_username | f_load_reddit_instance | f_fetch_user_content
| f_build_prompt | f_call_gemini_api | f_post_process_persona
| f_save_persona | f_run.

(** What a run leaves behind, in order: the entry into each function of the
    program, the log records ([traceback] for [logging.exception]), and the
    requests to the three services. *)
Inductive event : Type :=
| Call (f : func)
| Log (lvl : level) (traceback : bool) (m : message)
| Request (what : str) (username : str) (limit : Z)
| Generate (model prompt : str)
| OpenWrite (filename contents : str).

(** A computation appends to the trace and returns or raises;
    [sys.exit(code)] raises [SystemExit code]. *)
Definition M (A : Type) : Type := (list event * result A)%type.

Definition ret {A} (a : A) : M A := ([], Ok a).

Definition bind {A B} (m : M A) (k : A -> M B) : M B :=
  match m with
  | (t, Ok a) => let '(t', r) := k a in (t ++ t', r)
  | (t, Raise e) => (t, Raise e)
  end.

Declare Scope py_scope.
Delimit Scope py_scope with py.
Notation "x <- m ;; k" := (bind m (fun x => k))
  (at level 20, m at level 99, k at level 200, only parsing) : py_scope.
Notation "' p <- m ;; k" := (bind m (fun x => let 'p := x in k))
  (at level 20, p pattern, m at level 99, k at level 200, only parsing)
  : py_scope.
Notation "m ;; k" := (bind m (fun _ => k))
  (at level 100, k at level 200, only parsing, right associativity)
  : py_scope.
Local Open Scope py_scope.

Definition emit (e : event) : M unit := ([e], Ok tt).
Definition raise {A} (e : exn) : M A := ([], Raise e).
Definition sys_exit {A} (code : Z) : M A := raise (SystemExit code).
Definition lift {A} (r : result A) : M A := ([], r).

(** [try: body / except <class> as e: handler e] *)
Definition try_except {A} (body : M A) (class : exn -> bool)
  (handler : exn -> M A) : M A :=
  match body with
  | (t, Raise e) =>
      if class e then let '(t', r) := handler e in (t ++ t', r)
      else (t, Raise e)
  | (t, Ok a) => (t, Ok a)
  end.

Definition logging_info (m : message) : M unit := emit (Log INFO false m).
Definition logging_error (m : message) : M unit := emit (Log ERROR false m).
Definition logging_exception (m : message) : M unit := emit (Log ERROR true m).

Definition trace {A} (m : M A) : list event := fst m.
Definition outcome {A} (m : M A) : result A := snd m.

(** The status of the process whose entry point ran [m], as a shell
    reads it: 0 when it returns; the code of a [SystemExit], of which the
    system keeps the low eight bits; 130 for an uncaught
    [KeyboardInterrupt], on which the interpreter ends itself by the
    interrupt signal; 1 for any other uncaught exception. *)
Definition exit_code (m : M unit) : Z :=
  match outcome m with
  | Ok _ => 0
  | Raise (SystemExit code) => code mod 256
  | Raise KeyboardInterrupt => 130
  | Raise _ => 1
  end.

(** ** Core functions: credentials, fetch, generation, save *)

Record reddit_instance : Type := {
  client_id : str;
  client_secret : str;
  user_agent : str
}.

Definition load_reddit_instance (w : world) : M reddit_instance :=
  emit (Call f_load_reddit_instance) ;;
  let client_id := getenv w (lit "REDDIT_CLIENT_ID") in
  let client_secret := getenv w (lit "REDDIT_CLIENT_SECRET") in
  let user_agent := getenv w (lit "REDDIT_USER_AGENT") in
  if negb (forallb truthy [client_id; client_secret; user_agent]) then
    logging_error MissingCredentials ;;
    sys_exit 1
  else
    ret {| client_id := default [] client_id;
           client_secret := default [] client_secret;
           user_agent := default [] user_agent |}.

(** [for x in source: acc.append(item x)]: the list after the loop, which
    keeps what was appended when the iteration raises, and the exception. *)
Definition for_append {A} (source : listing A) (item : A -> dict)
  (acc : list dict) : list dict * option exn :=
  (acc ++ List.map item (yielded source), failure source).

(** [{"title": sub.title, "body": sub.selftext}] *)
Definition post_item (sub : str * str) : dict :=
  <[lit "title" := fst sub]> (<[lit "body" := snd sub]> ∅).

(** [{"body": com.body}] *)
Definition comment_item (com : str) : dict := <[lit "body" := com]> ∅.

(** The [try] block of [fetch_user_content], run on the two lists it
    appends to: the lists as the block leaves them, and what the block did. *)
Definition fetch_block (w : world) (username : str)
  (post_limit comment_limit : Z) (posts comments : list dict)
  : list dict * list dict * M unit :=
  match redditor w username with
  | Some e => (posts, comments, raise e)
  | None =>
      let '(posts, stop) :=
        for_append (submissions_new w username post_limit) post_item posts in
      match stop with
      | Some e =>
          (posts, comments,
           emit (Request (lit "submissions") username post_limit) ;; raise e)
      | None =>
          let '(comments, stop) :=
            for_append (comments_new w username comment_limit) comment_item
              comments in
          (posts, comments,
           emit (Request (lit "submissions") username post_limit) ;;
           emit (Request (lit "comments") username comment_limit) ;;
           match stop with
           | Some e => raise e
           | None =>
               logging_info (Fetched (length posts) (length comments) username)
           end)
      end
  end.

Definition fetch_user_content (w : world) (reddit : reddit_instance)
  (username : str) (post_limit comment_limit : Z)
  : M (list dict * list dict) :=
  emit (Call f_fetch_user_content) ;;
  let '(posts, comments, block) :=
    fetch_block w username post_limit comment_limit [] [] in
  try_except block is_Exception
    (fun e => logging_exception (ErrorFetching username e)) ;;
  ret (posts, comments).

Definition call_gemini_api (w : world) (prompt : str) : M str :=
  emit (Call f_call_gemini_api) ;;
  let api_key := getenv w (lit "GEMINI_API_KEY") in
  if negb (truthy api_key) then
    logging_error ApiKeyNotSet ;;
    sys_exit 1
  else
    try_except
      (emit (Generate MODEL_NAME prompt) ;;
       text <- lift (generate_content w MODEL_NAME prompt) ;;
       ret (Py.strip text))
      is_Exception
      (fun e => logging_exception (ApiCallFailed e) ;; sys_exit 1).

Definition save_persona (w : world) (username persona : str) : M unit :=
  emit (Call f_save_persona) ;;
  let filename := username ++ lit "_persona.txt" in
  try_except
    (emit (Call f_post_process_persona) ;;
     let persona := post_process_persona persona in
     emit (OpenWrite filename persona) ;;
     match write_file w filename persona with
     | Some e => raise e
     | None => logging_info (PersonaSaved filename)
     end)
    is_IOError
    (fun e => logging_exception (WriteFailed e)).

Definition run (w : world) (username : str) (post_limit comment_limit : Z)
  : M unit :=
  emit (Call f_run) ;;
  reddit <- load_reddit_instance w ;;
  '(posts, comments) <-
    fetch_user_content w reddit username post_limit comment_limit ;;
  if negb (truthy_list posts) && negb (truthy_list comments) then
    logging_error (NoContent username) ;;
    sys_exit 1
  else
    emit (Call f_build_prompt) ;;
    prompt <- lift (build_prompt posts comments username) ;;
    logging_info CallingApi ;;
    persona <- call_gemini_api w prompt ;;
    save_persona w username persona.

(** ** The entry point, after argument parsing *)

Definition main (unicode_alnum : char -> bool) (w : world) (url : str)
  (posts comments : Z) : M unit :=
  user <-
    try_except
      (emit (Call f_extract_username) ;;
       lift (extract_username unicode_alnum url))
      is_ValueError
      (fun e => logging_error (InvalidUrl e) ;; sys_exit 1) ;;
  run w user posts comments.

(** ** Reference notions the properties are stated with *)

(** The alphanumeric code points of Latin-1 beyond ASCII (feminine and
    masculine ordinal, micro sign, superscript digits, vulgar fractions and
    the accented letters), and nothing above: the part of the Unicode table
    that the concrete examples run with. *)
Definition latin1_alnum (c : char) : bool :=
  (c =? 170) || (c =? 178) || (c =? 179) || (c =? 181) || (c =? 185)
  || (c =? 186) || Py.in_range 188 190 c || Py.in_range 192 214 c
  || Py.in_range 216 246 c || Py.in_range 248 255 c.

(** The profile URL of a user name. *)
Definition profile_url (name : str) : str :=
  lit "https://reddit.com/user/" ++ name ++ lit "/".

(** A URL has the profile shape when it is the profile URL of a non-empty
    run of word characters and hyphens. *)
Definition has_profile_shape (unicode_alnum : char -> bool) (url : str)
  : bool :=
  match Py.literal (lit "https://reddit.com/user/") url with
  | Some rest =>
      match Py.span (is_name_char unicode_alnum) rest with
      | (_ :: _, [c]) => c =? 47
      | _ => false
      end
  | None => false
  end.

(** An occurrence of the pattern's literal followed by a character of the
    class, anywhere in the subject. *)
Definition has_profile_occurrence (unicode_alnum : char -> bool) (url : str)
  : Prop :=
  exists pre c rest,
    url = pre ++ lit "reddit.com/user/" ++ c :: rest
    /\ is_name_char unicode_alnum c = true.

(** What the heading normaliser does to one line. *)
Definition rewrite_line (l : str) : str :=
  match match_heading l with
  | Some (g, rest) => repl g ++ rest
  | None => l
  end.

(** The lines after a scan that starts at a line start ([bol]) or inside
    the first line. *)
Definition rewrite_lines (bol : bool) (ls : list str) : list str :=
  match ls with
  | l :: ls' => (if bol then rewrite_line l else l) :: List.map rewrite_line ls'
  | [] => []
  end.

(** A line begins with a heading: a non-empty run of letters, spaces or
    ampersands followed by a colon. *)
Definition heading_line (l : str) : Prop :=
  exists g rest,
    l = g ++ 58 :: rest /\ g <> [] /\ forallb is_heading_char g = true.

(** The prompt template as the specification prints it, its three fields
    filled in. *)
Definition spec_prompt (username posts_section comments_section : str)
  : str :=
  lit "Analyze the following Reddit user's posts and comments to generate a detailed user persona.
For each trait or insight, cite the source post or comment (full text or snippet) in the format: [source: ...].

User: " ++ username ++ lit "

Posts:
" ++ posts_section ++ lit "

Comments:
" ++ comments_section ++ lit "

Output format example:
User Persona: " ++ username ++ lit "

**Personality:** ... [source: ...]
**Interests:** ... [source: ...]
**Tone:** ... [source: ...]
**Values & Communication:** ... [source: ...]

Be concise but insightful.
".

(** Two items agree on the fields [section] reads. *)
Definition agree_on (key_names : list str) (a b : dict) : Prop :=
  forall k, In k key_names -> a !! k = b !! k.

(** The first exception the platform raises during a fetch, if any. *)
Definition fetch_failure (w : world) (username : str)
  (post_limit comment_limit : Z) : option exn :=
  match redditor w username with
  | Some e => Some e
  | None =>
      match failure (submissions_new w username post_limit) with
      | Some e => Some e
      | None => failure (comments_new w username comment_limit)
      end
  end.

(** The posts and the comments the platform yields before that. *)
Definition gathered_posts (w : world) (username : str) (post_limit : Z)
  : list dict :=
  match redditor w username with
  | Some _ => []
  | None => List.map post_item (yielded (submissions_new w username post_limit))
  end.

Definition gathered_comments (w : world) (username : str)
  (post_limit comment_limit : Z) : list dict :=
  match redditor w username,
        failure (submissions_new w username post_limit) with
  | None, None =>
      List.map comment_item (yielded (comments_new w username comment_limit))
  | _, _ => []
  end.

(** The events a fetch can leave in the trace. *)
Definition fetch_event (ev : event) : Prop :=
  match ev with
  | Call f_fetch_user_content | Request _ _ _ | Log _ _ _ => True
  | _ => False
  end.

(** The three platform credentials are set and not empty. *)
Definition credentials_present (w : world) : bool :=
  forallb truthy
    [getenv w (lit "REDDIT_CLIENT_ID"); getenv w (lit "REDDIT_CLIENT_SECRET");
     getenv w (lit "REDDIT_USER_AGENT")].

(** The client [load_reddit_instance] returns when they are. *)
Definition reddit_of (w : world) : reddit_instance :=
  {| client_id := default [] (getenv w (lit "REDDIT_CLIENT_ID"));
     client_secret := default [] (getenv w (lit "REDDIT_CLIENT_SECRET"));
     user_agent := default [] (getenv w (lit "REDDIT_USER_AGENT")) |}.

(** Kinds of events, for counting them in a trace. *)
Definition is_generate (ev : event) : bool :=
  match ev with Generate _ _ => true | _ => false end.

Definition is_write (ev : event) : bool :=
  match ev with OpenWrite _ _ => true | _ => false end.

Definition is_request (ev : event) : bool :=
  match ev with Request _ _ _ => true | _ => false end.

(** A result that is an exception. *)
Definition raised {A} (r : result A) : Prop :=
  match r with Raise _ => True | Ok _ => False end.

(** The pattern of the heading normaliser matches at the start of a line. *)
Definition is_heading (l : str) : bool :=
  match match_heading l with Some _ => true | None => false end.

(** The number of lines of a text that begin with a heading. *)
Definition count_headings (text : str) : nat :=
  length (List.filter is_heading (Py.lines text)).

(** A text with no white space at either end. *)
Definition trimmed (s : str) : Prop :=
  (forall c, hd_error s = Some c -> Py.isspace c = false)
  /\ (forall c, hd_error (rev s) = Some c -> Py.isspace c = false).

(** * Properties *)

(** ** Strings and patterns *)

Lemma literal_app (p s : str) : Py.literal p (p ++ s) = Some s.
Proof.
  induction p as [|a p IH]; simpl; [reflexivity|].
  rewrite N.eqb_refl. exact IH.
Qed.

Lemma literal_Some (p s r : str) : Py.literal p s = Some r -> s = p ++ r.
Proof.
  revert s. induction p as [|a p IH]; simpl; intros s H.
  - congruence.
  - destruct s as [|c s]; [discriminate|].
    destruct (N.eqb_spec c a) as [->|]; [|discriminate].
    f_equal. apply IH, H.
Qed.

Lemma span_split (p : char -> bool) (s a b : str) :
  Py.span p s = (a, b) ->
  s = a ++ b /\ forallb p a = true
  /\ match b with c :: _ => p c = false | [] => True end.
Proof.
  revert a b. induction s as [|c s IH]; simpl; intros a b H.
  - injection H as <- <-. auto.
  - destruct (p c) eqn:Hc.
    + destruct (Py.span p s) as [a' b'] eqn:Hs.
      injection H as <- <-.
      destruct (IH _ _ eq_refl) as (-> & Ha & Hb).
      simpl. rewrite Hc, Ha. auto.
    + injection H as <- <-. simpl. rewrite Hc. auto.
Qed.

Lemma span_run (p : char -> bool) (a b : str) :
  forallb p a = true ->
  match b with c :: _ => p c = false | [] => True end ->
  Py.span p (a ++ b) = (a, b).
Proof.
  intros Ha Hb. induction a as [|c a IH]; simpl in *.
  - destruct b as [|c b]; [reflexivity|]. simpl. rewrite Hb. reflexivity.
  - apply andb_true_iff in Ha as [Hc Ha]. rewrite Hc, (IH Ha). reflexivity.
Qed.

Lemma search_Some {A} (m : str -> option A) (s : str) (r : A) :
  Py.search m s = Some r ->
  exists pre suf, s = pre ++ suf /\ m suf = Some r.
Proof.
  induction s as [|c s IH]; simpl.
  - destruct (m []) eqn:Hm; [|discriminate].
    intros [= <-]. exists [], []. auto.
  - destruct (m (c :: s)) eqn:Hm.
    + intros [= <-]. exists [], (c :: s). auto.
    + intros H. destruct (IH H) as (pre & suf & -> & Hs).
      exists (c :: pre), suf. auto.
Qed.

Lemma search_None {A} (m : str -> option A) (s : str) :
  Py.search m s = None <-> forall pre suf, s = pre ++ suf -> m suf = None.
Proof.
  induction s as [|c s IH]; simpl.
  - destruct (m []) eqn:Hm; split.
    + discriminate.
    + intros H. rewrite <- Hm. apply (H [] []). reflexivity.
    + intros _ pre suf H. symmetry in H.
      apply app_eq_nil in H as [_ ->]. exact Hm.
    + reflexivity.
  - destruct (m (c :: s)) eqn:Hm; split.
    + discriminate.
    + intros H. rewrite <- Hm. apply (H [] (c :: s)). reflexivity.
    + intros H pre suf E. destruct pre as [|c' pre]; simpl in E.
      * subst suf. exact Hm.
      * injection E as _ E. apply (proj1 IH H pre suf E).
    + intros H. apply IH. intros pre suf E.
      apply (H (c :: pre) suf). simpl. f_equal. exact E.
Qed.

(** ** The URL parser *)

(** Boolean tests on code points, as arithmetic facts. *)
Ltac char_facts :=
  unfold Py.isspace, is_name_char, is_word, is_heading_char, latin1_alnum,
    Py.in_range in *;
  repeat match goal with
         | H : context [N.ltb ?a ?b] |- _ => destruct (N.ltb_spec a b)
         | |- context [N.ltb ?a ?b] => destruct (N.ltb_spec a b)
         end;
  rewrite ?orb_true_iff, ?andb_true_iff, ?orb_false_iff, ?andb_false_iff,
    ?N.leb_le, ?N.leb_gt, ?N.eqb_eq, ?N.eqb_neq in *.

Lemma search_here {A} (m : str -> option A) (s : str) (r : A) :
  m s = Some r -> Py.search m s = Some r.
Proof. intros H. destruct s; simpl; rewrite H; reflexivity. Qed.

Section UrlParserProperties.

Variable unicode_alnum : char -> bool.

Lemma match_profile_Some (s name : str) :
  match_profile unicode_alnum s = Some name ->
  exists rest,
    s = lit "reddit.com/user/" ++ name ++ rest
    /\ name <> []
    /\ forallb (is_name_char unicode_alnum) name = true.
Proof.
  unfold match_profile.
  destruct (Py.literal _ s) as [rest|] eqn:Hl; [|discriminate].
  apply literal_Some in Hl.
  destruct (Py.span _ rest) as [g rest'] eqn:Hs.
  apply span_split in Hs as (-> & Hg & _).
  destruct g as [|c g]; [discriminate|].
  intros [= <-]. exists rest'. auto.
Qed.

Lemma match_profile_None (s : str) :
  match_profile unicode_alnum s = None <->
  ~ exists c rest,
      s = lit "reddit.com/user/" ++ c :: rest
      /\ is_name_char unicode_alnum c = true.
Proof.
  unfold match_profile. split.
  - intros H (c & rest & -> & Hc). rewrite literal_app in H.
    simpl in H. rewrite Hc in H.
    destruct (Py.span _ rest). discriminate.
  - intros H.
    destruct (Py.literal _ s) as [rest|] eqn:Hl; [|reflexivity].
    apply literal_Some in Hl.
    destruct (Py.span _ rest) as [g rest'] eqn:Hs.
    apply span_split in Hs as (-> & Hg & _).
    destruct g as [|c g]; [reflexivity|].
    exfalso. apply H. exists c, (g ++ rest'). split; [exact Hl|].
    simpl in Hg. apply andb_true_iff in Hg. tauto.
Qed.

Lemma match_profile_run (name rest : str) :
  name <> [] ->
  forallb (is_name_char unicode_alnum) name = true ->
  match rest with
  | c :: _ => is_name_char unicode_alnum c = false
  | [] => True
  end ->
  match_profile unicode_alnum (lit "reddit.com/user/" ++ name ++ rest)
  = Some name.
Proof.
  intros Hne Hname Hrest. unfold match_profile.
  rewrite literal_app, (span_run _ _ _ Hname Hrest).
  destruct name; congruence.
Qed.

Lemma search_profile_skip (pre s : str) :
  Forall (fun c => c <> 114) pre ->
  Py.search (match_profile unicode_alnum) (pre ++ s)
  = Py.search (match_profile unicode_alnum) s.
Proof.
  induction 1 as [|c pre Hc _ IH]; [reflexivity|].
  simpl app. simpl Py.search.
  replace (match_profile unicode_alnum (c :: pre ++ s)) with (@None (list N)).
  - exact IH.
  - unfold match_profile.
    change (lit "reddit.com/user/") with (114 :: lit "eddit.com/user/").
    cbn [Py.literal].
    destruct (N.eqb_spec c 114); [contradiction|reflexivity].
Qed.

Lemma slash_not_name_char : is_name_char unicode_alnum 47 = false.
Proof. reflexivity. Qed.

Lemma extract_username_profile_url (name : str) :
  name <> [] ->
  forallb (is_name_char unicode_alnum) name = true ->
  extract_username unicode_alnum (profile_url name) = Ok name.
Proof.
  intros Hne Hname. unfold extract_username, profile_url.
  change (lit "https://reddit.com/user/")
    with (lit "https://" ++ lit "reddit.com/user/").
  rewrite <- app_assoc, search_profile_skip.
  - rewrite (search_here _ _ name); [reflexivity|].
    exact (match_profile_run name (lit "/") Hne Hname slash_not_name_char).
  - repeat constructor; discriminate.
Qed.

Lemma extract_username_Raise (url : str) :
  ~ has_profile_occurrence unicode_alnum url ->
  extract_username unicode_alnum url
  = Raise (ValueError (lit "Invalid Reddit profile URL: " ++ url)).
Proof.
  intros H. unfold extract_username.
  replace (Py.search (match_profile unicode_alnum) url) with (@None (list N));
    [reflexivity|].
  symmetry. apply search_None. intros pre suf ->.
  apply match_profile_None. intros (c & rest & -> & Hc).
  apply H. exists pre, c, rest. auto.
Qed.

Lemma extract_username_Ok (url : str) :
  has_profile_occurrence unicode_alnum url ->
  exists name, extract_username unicode_alnum url = Ok name.
Proof.
  intros (pre & c & rest & -> & Hc). unfold extract_username.
  destruct (Py.search _ _) as [name|] eqn:Hs; [eauto|].
  exfalso. rewrite search_None in Hs.
  specialize (Hs pre _ eq_refl). apply match_profile_None in Hs.
  apply Hs. eauto.
Qed.

Lemma extract_username_occurrence (url name : str) :
  extract_username unicode_alnum url = Ok name ->
  exists pre rest,
    url = pre ++ lit "reddit.com/user/" ++ name ++ rest
    /\ name <> []
    /\ forallb (is_name_char unicode_alnum) name = true.
Proof.
  unfold extract_username.
  destruct (Py.search _ url) as [g|] eqn:Hs; [|discriminate].
  intros [= <-]. apply search_Some in Hs as (pre & suf & -> & Hm).
  apply match_profile_Some in Hm as (rest & -> & H). eauto.
Qed.

(** C1 (as amended).  The profile URL of a non-empty run of word characters
    and hyphens yields exactly that run; a URL is refused, with
    [ValueError], exactly when it holds no occurrence of
    [reddit.com/user/] followed by a word character or hyphen, and every
    other URL yields a user name, of the profile shape or not. *)
Theorem extract_username_spec :
  (forall name,
     name <> [] ->
     forallb (is_name_char unicode_alnum) name = true ->
     extract_username unicode_alnum (profile_url name) = Ok name)
  /\ (forall url,
        ~ has_profile_occurrence unicode_alnum url ->
        extract_username unicode_alnum url
        = Raise (ValueError (lit "Invalid Reddit profile URL: " ++ url)))
  /\ (forall url,
        has_profile_occurrence unicode_alnum url ->
        exists name, extract_username unicode_alnum url = Ok name).
Proof.
  split; [|split].
  - exact extract_username_profile_url.
  - exact extract_username_Raise.
  - exact extract_username_Ok.
Qed.

Lemma name_char_not_space (c : char) :
  (forall c, Py.isspace c = true -> unicode_alnum c = false) ->
  is_name_char unicode_alnum c = true ->
  c <> 47 /\ c <> 46 /\ Py.isspace c = false.
Proof.
  intros Htable Hc.
  destruct (Py.isspace c) eqn:Hsp.
  - specialize (Htable c Hsp). revert Hc Hsp.
    unfold is_name_char, is_word. rewrite Htable.
    char_facts; lia.
  - revert Hc. clear. char_facts; intros Hc; repeat split; try lia.
Qed.

(** C9.  A user name returned by [extract_username] is never empty and
    holds only word characters and hyphens; in particular no slash, no dot
    and no white space (the Unicode table gives no white-space character
    the alphanumeric property). *)
Theorem extract_username_charset (url name : str) :
  (forall c, Py.isspace c = true -> unicode_alnum c = false) ->
  extract_username unicode_alnum url = Ok name ->
  name <> []
  /\ Forall (fun c => is_name_char unicode_alnum c = true
                      /\ c <> 47 /\ c <> 46 /\ Py.isspace c = false) name.
Proof.
  intros Htable H.
  apply extract_username_occurrence in H as (pre & rest & _ & Hne & Hall).
  split; [exact Hne|].
  rewrite forallb_forall in Hall. apply List.Forall_forall. intros c Hc.
  split; [apply Hall, Hc|].
  apply name_char_not_space; auto.
Qed.

End UrlParserProperties.

Lemma has_profile_shape_spec (unicode_alnum : char -> bool) (url : str) :
  has_profile_shape unicode_alnum url = true <->
  exists name,
    name <> [] /\ forallb (is_name_char unicode_alnum) name = true
    /\ url = profile_url name.
Proof.
  unfold has_profile_shape, profile_url. split.
  - destruct (Py.literal _ url) as [rest|] eqn:Hl; [|discriminate].
    apply literal_Some in Hl.
    destruct (Py.span _ rest) as [g rest'] eqn:Hs.
    apply span_split in Hs as (-> & Hg & _).
    destruct g as [|c g]; [discriminate|].
    destruct rest' as [|c' [|]]; try discriminate.
    destruct (N.eqb_spec c' 47) as [->|]; [|discriminate].
    intros _. exists (c :: g). repeat split; [discriminate|exact Hg|exact Hl].
  - intros (name & Hne & Hname & ->).
    rewrite literal_app,
      (span_run _ name (lit "/") Hname (slash_not_name_char unicode_alnum)).
    destruct name; [contradiction|reflexivity].
Qed.

(** A URL that is not the profile URL of any name (its path is [/]; the
    pattern occurs in its query string) and for which the parser returns a
    user name, whatever the Unicode table: its characters are ASCII. *)
Lemma extract_username_stray_occurrence (unicode_alnum : char -> bool) :
  has_profile_shape unicode_alnum
    (lit "https://example.org/?next=reddit.com/user/bob") = false
  /\ extract_username unicode_alnum
       (lit "https://example.org/?next=reddit.com/user/bob")
     = Ok (lit "bob").
Proof. split; vm_compute; reflexivity. Qed.

(** C1, refuted as stated.  This URL lacks the profile shape, and the
    parser returns a user name for it instead of failing. *)
Lemma extract_username_accepts_other_shapes :
  has_profile_shape latin1_alnum
    (lit "https://example.org/?next=reddit.com/user/bob") = false
  /\ extract_username latin1_alnum
       (lit "https://example.org/?next=reddit.com/user/bob")
     = Ok (lit "bob").
Proof. exact (extract_username_stray_occurrence latin1_alnum). Qed.

Lemma extract_username_charset_witness :
  extract_username latin1_alnum (lit "https://www.reddit.com/user/ko-jied_42/")
  = Ok (lit "ko-jied_42")
  /\ (lit "ko-jied_42" <> []
      /\ Forall (fun c => is_name_char latin1_alnum c = true
                          /\ c <> 47 /\ c <> 46 /\ Py.isspace c = false)
           (lit "ko-jied_42")).
Proof.
  split; [reflexivity|].
  apply (extract_username_charset latin1_alnum
           (lit "https://www.reddit.com/user/ko-jied_42/")).
  - intros c. char_facts. lia.
  - reflexivity.
Defined.

(** ** Lines *)

Lemma lines_nonempty (s : str) : Py.lines s <> [].
Proof.
  destruct s as [|c s]; simpl; [discriminate|].
  destruct (c =? 10); [discriminate|].
  destruct (Py.lines s); discriminate.
Qed.

Lemma lines_newline (s : str) : Py.lines (10 :: s) = [] :: Py.lines s.
Proof. reflexivity. Qed.

Lemma lines_prefix (p s l0 : str) (ls : list str) :
  ~ In 10 p -> Py.lines s = l0 :: ls ->
  Py.lines (p ++ s) = (p ++ l0) :: ls.
Proof.
  intros Hp Hs. induction p as [|c p IH]; simpl; [exact Hs|].
  destruct (N.eqb_spec c 10) as [->|_].
  - exfalso. apply Hp. left. reflexivity.
  - rewrite IH; [reflexivity|]. intros H. apply Hp. right. exact H.
Qed.

Lemma lines_no_newline (s : str) : Forall (fun l => ~ In 10 l) (Py.lines s).
Proof.
  induction s as [|c s IH]; simpl.
  - repeat constructor. intros [].
  - destruct (N.eqb_spec c 10) as [->|Hc].
    + constructor; [intros []|exact IH].
    + destruct (Py.lines s) as [|l ls]; [repeat constructor; intros [H|[]]; auto|].
      inversion IH as [|? ? Hl Hls]; subst.
      constructor; [|exact Hls]. intros [H|H]; auto.
Qed.

Lemma join_app_head (sep a x : str) (ls : list str) :
  Py.join sep ((a ++ x) :: ls) = a ++ Py.join sep (x :: ls).
Proof. destruct ls; simpl; [reflexivity|]. rewrite <- app_assoc. reflexivity. Qed.

Lemma join_lines (s : str) : Py.join [10] (Py.lines s) = s.
Proof.
  induction s as [|c s IH]; [reflexivity|]. simpl Py.lines.
  destruct (N.eqb_spec c 10) as [->|_].
  - pose proof (lines_nonempty s) as Hne.
    destruct (Py.lines s) as [|l ls]; [contradiction|].
    change (10 :: Py.join [10] (l :: ls) = 10 :: s). rewrite IH. reflexivity.
  - pose proof (lines_nonempty s) as Hne.
    destruct (Py.lines s) as [|l ls]; [contradiction|].
    change (c :: l) with ([c] ++ l).
    rewrite (join_app_head [10] [c] l ls), IH. reflexivity.
Qed.

Lemma lines_join (ls : list str) :
  ls <> [] -> Forall (fun l => ~ In 10 l) ls ->
  Py.lines (Py.join [10] ls) = ls.
Proof.
  intros Hne Hall. induction Hall as [|l ls Hl Hls IH]; [contradiction|].
  destruct ls as [|l' ls'].
  - simpl. rewrite <- (app_nil_r l) at 1.
    rewrite (lines_prefix l [] [] []); [rewrite app_nil_r; reflexivity|exact Hl|reflexivity].
  - change (Py.join [10] (l :: l' :: ls'))
      with (l ++ 10 :: Py.join [10] (l' :: ls')).
    rewrite (lines_prefix l _ [] (l' :: ls') Hl).
    + rewrite app_nil_r. reflexivity.
    + rewrite lines_newline, IH; [reflexivity|discriminate].
Qed.

(** ** The heading pattern *)

Lemma heading_char_plain (c : char) :
  is_heading_char c = true -> c <> 10 /\ c <> 58 /\ c <> 42.
Proof. char_facts. lia. Qed.

Lemma heading_run_plain (g : str) (c : char) :
  forallb is_heading_char g = true -> In c g -> c <> 10 /\ c <> 58 /\ c <> 42.
Proof.
  rewrite forallb_forall. intros H Hc. apply heading_char_plain, H, Hc.
Qed.

Lemma match_heading_Some (s g rest : str) :
  match_heading s = Some (g, rest) ->
  s = g ++ 58 :: rest /\ g <> [] /\ forallb is_heading_char g = true.
Proof.
  unfold match_heading.
  destruct (Py.span is_heading_char s) as [a b] eqn:Hs.
  apply span_split in Hs as (-> & Ha & _).
  destruct a as [|c a]; [discriminate|].
  destruct b as [|c' b]; [discriminate|].
  destruct (N.eqb_spec c' 58) as [->|]; [|discriminate].
  intros [= <- <-]. repeat split; [discriminate|exact Ha].
Qed.

Lemma match_heading_intro (g rest : str) :
  g <> [] -> forallb is_heading_char g = true ->
  match_heading (g ++ 58 :: rest) = Some (g, rest).
Proof.
  intros Hne Hg. unfold match_heading.
  rewrite (span_run is_heading_char g (58 :: rest) Hg eq_refl).
  destruct g; [contradiction|reflexivity].
Qed.

Lemma match_heading_None (s : str) :
  match_heading s = None <-> ~ heading_line s.
Proof.
  split.
  - intros H (g & rest & -> & Hne & Hg).
    rewrite (match_heading_intro g rest Hne Hg) in H. discriminate.
  - intros H. destruct (match_heading s) as [[g rest]|] eqn:Hm; [|reflexivity].
    exfalso. apply H. exists g, rest. apply match_heading_Some, Hm.
Qed.

(** The pattern looks at one line only: a newline is outside the class and
    is no colon. *)
Lemma match_heading_first_line (l s : str) :
  match_heading (l ++ 10 :: s)
  = match match_heading l with
    | Some (g, rest) => Some (g, rest ++ 10 :: s)
    | None => None
    end.
Proof.
  unfold match_heading.
  destruct (Py.span is_heading_char l) as [a b] eqn:Hs.
  apply span_split in Hs as (-> & Ha & Hb).
  rewrite <- app_assoc.
  rewrite (span_run is_heading_char a (b ++ 10 :: s) Ha).
  - destruct a as [|c a]; [reflexivity|].
    destruct b as [|c' b]; simpl; [reflexivity|].
    destruct (c' =? 58); reflexivity.
  - destruct b; simpl; [reflexivity|exact Hb].
Qed.

Lemma match_heading_line_None (s l : str) (ls : list str) :
  Py.lines s = l :: ls -> match_heading s = None -> match_heading l = None.
Proof.
  intros Hl. rewrite <- (join_lines s), Hl.
  destruct ls as [|l' ls]; [trivial|].
  change (Py.join [10] (l :: l' :: ls))
    with (l ++ 10 :: Py.join [10] (l' :: ls)).
  rewrite match_heading_first_line.
  destruct (match_heading l) as [[g rest]|]; [discriminate|reflexivity].
Qed.

(** ** The heading normaliser, line by line *)

Lemma rewrite_lines_true (ls : list str) :
  rewrite_lines true ls = List.map rewrite_line ls.
Proof. destruct ls; reflexivity. Qed.

Lemma rewrite_line_heading (g rest : str) :
  g <> [] -> forallb is_heading_char g = true ->
  rewrite_line (g ++ 58 :: rest) = repl g ++ rest.
Proof.
  intros Hne Hg. unfold rewrite_line.
  rewrite (match_heading_intro g rest Hne Hg). reflexivity.
Qed.

(** The scan of [re.sub] rewrites each line on its own, the first one only
    when the scan starts at its beginning; the text's length is fuel enough. *)
Lemma sub_from_lines (fuel : nat) :
  forall (bol : bool) (s : str),
    (length s <= fuel)%nat ->
    Py.sub_from match_heading repl fuel bol s
    = Py.join [10] (rewrite_lines bol (Py.lines s)).
Proof.
  induction fuel as [|fuel IH]; intros bol s Hlen.
  - destruct s; [|simpl in Hlen; lia]. destruct bol; reflexivity.
  - destruct s as [|c s]; [destruct bol; reflexivity|].
    simpl in Hlen. cbn [Py.sub_from].
    assert (Hcopy :
      (if bol then match_heading (c :: s) else None) = None ->
      c :: Py.sub_from match_heading repl fuel (c =? 10) s
      = Py.join [10] (rewrite_lines bol (Py.lines (c :: s)))).
    { intros Hm. rewrite IH by lia. cbn [Py.lines].
      pose proof (lines_nonempty s) as Hne.
      destruct (N.eqb_spec c 10) as [->|Hc].
      - rewrite rewrite_lines_true.
        destruct (Py.lines s) as [|l ls]; [contradiction|].
        destruct bol; reflexivity.
      - destruct (Py.lines s) as [|l ls] eqn:Hl; [contradiction|].
        assert (Hfirst : (if bol then rewrite_line (c :: l) else c :: l)
                         = c :: l).
        { destruct bol; [|reflexivity]. unfold rewrite_line.
          rewrite (match_heading_line_None (c :: s) (c :: l) ls); auto.
          cbn [Py.lines]. destruct (N.eqb_spec c 10); [contradiction|].
          rewrite Hl. reflexivity. }
        cbn [rewrite_lines]. rewrite Hfirst.
        change (c :: l) with ([c] ++ l). rewrite join_app_head. reflexivity. }
    destruct bol; [|apply Hcopy; reflexivity].
    destruct (match_heading (c :: s)) as [[g rest]|] eqn:Hm;
      [|apply Hcopy; reflexivity].
    clear Hcopy. pose proof Hm as Hm'.
    apply match_heading_Some in Hm' as (Hs & Hne & Hg).
    assert (Hrest : (length rest <= fuel)%nat).
    { apply (f_equal (@length N)) in Hs. rewrite length_app in Hs.
      simpl in Hs. lia. }
    rewrite (IH false rest Hrest), Hs.
    pose proof (lines_nonempty rest) as Hnl.
    destruct (Py.lines rest) as [|l ls] eqn:Hl; [contradiction|].
    replace (g ++ 58 :: rest) with ((g ++ [58]) ++ rest)
      by (rewrite <- app_assoc; reflexivity).
    rewrite (lines_prefix (g ++ [58]) rest l ls); [|
      intros H; apply in_app_or in H as [H|[H|[]]];
      [apply (proj1 (heading_run_plain g 10 Hg H)); reflexivity|discriminate]
      |exact Hl].
    cbn [rewrite_lines]. rewrite <- app_assoc. cbn [app].
    rewrite (rewrite_line_heading g l Hne Hg), join_app_head. reflexivity.
Qed.

Lemma post_process_persona_lines (text : str) :
  post_process_persona text
  = Py.join [10] (List.map rewrite_line (Py.lines text)).
Proof.
  unfold post_process_persona, Py.sub_multiline.
  rewrite sub_from_lines by lia. rewrite rewrite_lines_true. reflexivity.
Qed.

Lemma rewrite_line_no_newline (l : str) :
  ~ In 10 l -> ~ In 10 (rewrite_line l).
Proof.
  unfold rewrite_line.
  destruct (match_heading l) as [[g rest]|] eqn:Hm; [|trivial].
  apply match_heading_Some in Hm as (-> & _ & Hg).
  intros Hl H. unfold repl in H.
  rewrite <- !app_assoc in H.
  apply in_app_or in H as [H|H]; [destruct H as [H|[H|[]]]; discriminate|].
  apply in_app_or in H as [H|H];
    [apply Hl, in_or_app; left; exact H|].
  apply in_app_or in H as [H|H];
    [destruct H as [H|[H|[H|[]]]]; discriminate|].
  apply Hl, in_or_app. right. right. exact H.
Qed.

Lemma lines_post_process_persona (text : str) :
  Py.lines (post_process_persona text)
  = List.map rewrite_line (Py.lines text).
Proof.
  rewrite post_process_persona_lines. apply lines_join.
  - pose proof (lines_nonempty text).
    destruct (Py.lines text); [contradiction|discriminate].
  - apply List.Forall_forall. intros l' Hl'.
    apply in_map_iff in Hl' as (l & <- & Hl).
    apply rewrite_line_no_newline.
    pose proof (lines_no_newline text) as H.
    rewrite List.Forall_forall in H. apply H, Hl.
Qed.

(** A rewritten line opens with an asterisk, which is outside the class:
    the pattern does not match it again. *)
Lemma rewrite_line_idempotent (l : str) :
  rewrite_line (rewrite_line l) = rewrite_line l.
Proof.
  unfold rewrite_line at 2 3.
  destruct (match_heading l) as [[g rest]|] eqn:Hm.
  - unfold rewrite_line. reflexivity.
  - unfold rewrite_line. rewrite Hm. reflexivity.
Qed.

(** C5.  The heading-bold transform is idempotent: applied twice it gives
    what it gives applied once, for every text. *)
Theorem post_process_persona_idempotent (text : str) :
  post_process_persona (post_process_persona text)
  = post_process_persona text.
Proof.
  rewrite (post_process_persona_lines (post_process_persona text)).
  rewrite lines_post_process_persona, List.map_map.
  rewrite (List.map_ext _ rewrite_line rewrite_line_idempotent).
  symmetry. apply post_process_persona_lines.
Qed.

(** C10.  The transform keeps the number of lines; a line that does not
    begin with a run of letters, spaces or ampersands followed by a colon is
    left as it is; a line that does, [g ++ ":" ++ rest], has its first colon
    right after [g] and becomes [**g:**] followed by [rest] unchanged. *)
Theorem post_process_persona_frame (text : str) :
  length (Py.lines (post_process_persona text)) = length (Py.lines text)
  /\ (forall i l,
        nth_error (Py.lines text) i = Some l ->
        ~ heading_line l ->
        nth_error (Py.lines (post_process_persona text)) i = Some l)
  /\ (forall i g rest,
        nth_error (Py.lines text) i = Some (g ++ 58 :: rest) ->
        g <> [] ->
        forallb is_heading_char g = true ->
        ~ In 58 g
        /\ nth_error (Py.lines (post_process_persona text)) i
           = Some (lit "**" ++ g ++ lit ":**" ++ rest)).
Proof.
  rewrite lines_post_process_persona. split; [|split].
  - apply length_map.
  - intros i l Hi Hl. rewrite nth_error_map, Hi. simpl.
    unfold rewrite_line. apply match_heading_None in Hl. rewrite Hl.
    reflexivity.
  - intros i g rest Hi Hne Hg. split.
    + intros H. apply (proj1 (proj2 (heading_run_plain g 58 Hg H))).
      reflexivity.
    + rewrite nth_error_map, Hi. simpl.
      rewrite (rewrite_line_heading g rest Hne Hg). unfold repl.
      rewrite <- !app_assoc. reflexivity.
Qed.

(** ** The prompt builder *)

Lemma In_lstrip (c : char) (s : str) : In c (Py.lstrip s) -> In c s.
Proof.
  induction s as [|a s IH]; simpl; [trivial|].
  destruct (Py.isspace a); [right; apply IH; assumption|trivial].
Qed.

Lemma In_strip (c : char) (s : str) : In c (Py.strip s) -> In c s.
Proof.
  unfold Py.strip, Py.rstrip. intros H.
  apply In_lstrip, (proj2 (in_rev _ _)), In_lstrip, (proj2 (in_rev _ _)), H.
Qed.

Lemma replace_no_newline (s : str) : ~ In 10 (Py.replace 10 32 s).
Proof.
  unfold Py.replace. intros H. apply in_map_iff in H as (c & Hc & _).
  destruct (N.eqb_spec c 10); [discriminate|congruence].
Qed.

Lemma split_last_Some (sep : char) (s a b : str) :
  Py.split_last sep s = Some (a, b) -> s = a ++ sep :: b /\ ~ In sep b.
Proof.
  revert a. induction s as [|c s IH]; simpl; intros a; [discriminate|].
  destruct (Py.split_last sep s) as [[a' b']|] eqn:Hs.
  - intros [= <- <-]. destruct (IH a' eq_refl) as [-> Hb]. auto.
  - destruct (N.eqb_spec c sep) as [->|]; [|discriminate].
    intros [= <- <-]. split; [reflexivity|].
    clear IH. induction s as [|c s IH]; simpl in *; [tauto|].
    destruct (Py.split_last sep s) as [[? ?]|]; [discriminate|].
    destruct (N.eqb_spec c sep); [discriminate|].
    intros [H|H]; [congruence|]. apply IH; auto.
Qed.

(** What the cut keeps of a text longer than 300 characters. *)
Lemma truncate_long (text : str) :
  (300 < length text)%nat ->
  exists kept tail,
    truncate text = kept ++ [8230]
    /\ text = kept ++ tail
    /\ (length kept <= 300)%nat
    /\ (In 32 (take 300 text) ->
        exists tail',
          tail = 32 :: tail' /\ (length kept < 300)%nat
          /\ ~ In 32 (take (299 - length kept) tail'))
    /\ (~ In 32 (take 300 text) -> kept = take 300 text).
Proof.
  intros Hlen. unfold truncate, Py.rsplit1.
  apply Nat.ltb_lt in Hlen as Hb. rewrite Hb.
  assert (Htake : length (take 300 text) = 300%nat)
    by (rewrite length_take; lia).
  destruct (Py.split_last 32 (take 300 text)) as [[a b]|] eqn:Hs.
  - apply split_last_Some in Hs as [Ha Hb'].
    assert (Hla : (length a + S (length b) = 300)%nat).
    { rewrite <- Htake, Ha, length_app. reflexivity. }
    exists a, (32 :: b ++ drop 300 text). simpl hd.
    split; [reflexivity|]. split.
    { rewrite <- (take_drop 300 text) at 1. rewrite Ha, <- app_assoc.
      reflexivity. }
    split; [lia|]. split.
    + intros _. exists (b ++ drop 300 text).
      split; [reflexivity|]. split; [lia|].
      replace (299 - length a)%nat with (length b) by lia.
      rewrite take_app_length. exact Hb'.
    + intros H. exfalso. apply H. rewrite Ha. apply in_or_app. right. left.
      reflexivity.
  - exists (take 300 text), (drop 300 text). simpl hd.
    split; [reflexivity|]. split; [symmetry; apply take_drop|].
    split; [lia|]. split; [|reflexivity].
    intros H. exfalso.
    destruct (in_dec N.eq_dec 32 (take 300 text)) as [Hin|Hin];
      [|contradiction].
    clear H. revert Hs Hin. generalize (take 300 text). clear.
    intros s. induction s as [|c s IH]; simpl; [tauto|].
    destruct (Py.split_last 32 s) as [[? ?]|]; [discriminate|].
    destruct (N.eqb_spec c 32); [discriminate|].
    intros _ [H|H]; [congruence|]. apply IH; auto.
Qed.

Lemma truncate_short (text : str) :
  (length text <= 300)%nat -> truncate text = text.
Proof.
  intros H. unfold truncate.
  destruct (Nat.ltb_spec 300 (length text)); [lia|reflexivity].
Qed.

Lemma In_truncate (c : char) (text : str) :
  In c (truncate text) -> In c text \/ c = 8230.
Proof.
  destruct (Nat.le_gt_cases (length text) 300) as [H|H].
  - rewrite (truncate_short text H). auto.
  - destruct (truncate_long text H) as (kept & tail & -> & E & _).
    intros Hc. apply in_app_or in Hc as [Hc|[<-|[]]]; [|auto].
    left. rewrite E. apply in_or_app. auto.
Qed.

Lemma render_item_no_newline (item : dict) (key_names : list str) :
  ~ In 10 (render_item item key_names).
Proof.
  unfold render_item. intros H.
  apply in_app_or in H as [H|H]; [destruct H as [H|[H|[]]]; discriminate|].
  apply In_truncate in H as [H|H]; [|discriminate].
  apply In_strip in H. apply (replace_no_newline _ H).
Qed.

Lemma lines_section (items : list dict) (key_names : list str) :
  items <> [] ->
  Py.lines (section items key_names)
  = List.map (fun item => render_item item key_names) items.
Proof.
  intros Hne. unfold section. apply lines_join.
  - destruct items; [contradiction|discriminate].
  - apply List.Forall_forall. intros l Hl.
    apply in_map_iff in Hl as (item & <- & _).
    apply render_item_no_newline.
Qed.

(** C2 (as amended).  Every item is rendered as one line of the section,
    ["- "] and its text.  A cleaned text of at most 300 characters is there
    verbatim.  A longer one is cut and the marker appended: when its first
    300 characters hold a space, what is kept ends before the last of these
    spaces (fewer than 300 characters, a space follows); when they hold
    none, the first 300 characters are kept whole. *)
Theorem truncation_law (items : list dict) (key_names : list str) :
  (items <> [] ->
   Py.lines (section items key_names)
   = List.map (fun item => render_item item key_names) items)
  /\ forall item,
       In item items ->
       let text := clean item key_names in
       ((length text <= 300)%nat ->
        render_item item key_names = lit "- " ++ text)
       /\ ((300 < length text)%nat ->
           exists kept tail,
             render_item item key_names = lit "- " ++ kept ++ [8230]
             /\ text = kept ++ tail
             /\ (length kept <= 300)%nat
             /\ (In 32 (take 300 text) ->
                 exists tail',
                   tail = 32 :: tail' /\ (length kept < 300)%nat
                   /\ ~ In 32 (take (299 - length kept) tail'))
             /\ (~ In 32 (take 300 text) -> kept = take 300 text)).
Proof.
  split; [apply lines_section|].
  intros item _ text. unfold render_item. fold text. split.
  - intros H. rewrite (truncate_short text H). reflexivity.
  - intros H.
    destruct (truncate_long text H) as (kept & tail & -> & Hrest).
    exists kept, tail. split; [reflexivity|exact Hrest].
Qed.

(** C2, refuted as stated.  The cleaned text of this item is 301 letters
    [a]; it is rendered as its first 300 letters and the marker: the cut
    falls between two letters (the 300th and the 301st), at no word
    boundary. *)
Lemma truncation_cuts_inside_a_word :
  clean (<[lit "body" := repeat 97 301]> ∅) [lit "body"] = repeat 97 301
  /\ render_item (<[lit "body" := repeat 97 301]> ∅) [lit "body"]
     = lit "- " ++ repeat 97 300 ++ [8230]
  /\ nth_error (repeat 97 301) 299 = Some 97
  /\ nth_error (repeat 97 301) 300 = Some 97.
Proof. vm_compute. repeat split. Qed.

Lemma build_prompt_template (posts comments : list dict) (username : str) :
  build_prompt posts comments username
  = Ok (10 :: spec_prompt username
                (section posts [lit "title"; lit "body"])
                (section comments [lit "body"])).
Proof.
  unfold build_prompt.
  generalize (section posts [lit "title"; lit "body"]) as posts_section.
  generalize (section comments [lit "body"]) as comments_section.
  intros. vm_compute. reflexivity.
Qed.

(** C4 (as amended).  The prompt is a newline (the template literal opens
    with a line break) followed by the template as the specification prints
    it, with the user name at both of its places, the posts block and the
    comments block, and nothing else; a block is its items' bulleted lines,
    none of which holds a newline, joined by newlines. *)
Theorem build_prompt_is_template (posts comments : list dict)
  (username : str) :
  build_prompt posts comments username
  = Ok (10 :: spec_prompt username
                (section posts [lit "title"; lit "body"])
                (section comments [lit "body"]))
  /\ (forall items key_names,
        section items key_names
        = Py.join [10]
            (List.map
               (fun item => lit "- " ++ truncate (clean item key_names))
               items)
        /\ Forall (fun line => ~ In 10 line)
             (List.map
                (fun item => lit "- " ++ truncate (clean item key_names))
                items)).
Proof.
  split; [apply build_prompt_template|].
  intros items key_names. split; [reflexivity|].
  apply List.Forall_forall. intros l Hl.
  apply in_map_iff in Hl as (item & <- & _).
  apply (render_item_no_newline item key_names).
Qed.

(** C4, refuted as stated.  The prompt built for a user without items opens
    with a newline, where the template of the specification opens with the
    letter [A]: one character is added to the verbatim template. *)
Lemma build_prompt_opens_with_newline :
  build_prompt [] [] (lit "kojied")
  = Ok (10 :: spec_prompt (lit "kojied") [] [])
  /\ hd_error (spec_prompt (lit "kojied") [] []) = Some 65.
Proof. split; vm_compute; reflexivity. Qed.

Lemma snippet_agree (key_names : list str) (a b : dict) :
  agree_on key_names a b -> snippet a key_names = snippet b key_names.
Proof.
  unfold snippet. intros H. f_equal.
  induction key_names as [|k ks IH]; [reflexivity|]. cbn [List.filter].
  assert (Hk : a !! k = b !! k) by (apply H; left; reflexivity).
  assert (Hks : agree_on ks a b) by (intros k' Hk'; apply H; right; exact Hk').
  rewrite <- Hk. destruct (truthy (a !! k)); cbn [List.map];
    rewrite (IH Hks), <- ?Hk; reflexivity.
Qed.

Lemma section_agree (key_names : list str) (xs ys : list dict) :
  Forall2 (agree_on key_names) xs ys ->
  section xs key_names = section ys key_names.
Proof.
  intros H. unfold section. f_equal.
  induction H as [|a b xs ys Hab _ IH]; [reflexivity|]. simpl.
  rewrite IH. unfold render_item, clean.
  rewrite (snippet_agree key_names a b Hab). reflexivity.
Qed.

(** X17.  [build_prompt] reads nothing of an item but the fields its
    sections name: two lists of posts that agree, item by item, on [title]
    and [body], and two lists of comments that agree on [body], give the
    same prompt for the same user name, whatever other keys (a score, an
    id) the items carry. *)
Theorem build_prompt_reads_only_its_fields
  (posts posts' comments comments' : list dict) (username : str) :
  Forall2 (agree_on [lit "title"; lit "body"]) posts posts' ->
  Forall2 (agree_on [lit "body"]) comments comments' ->
  build_prompt posts comments username
  = build_prompt posts' comments' username.
Proof.
  intros Hp Hc. rewrite !build_prompt_template.
  rewrite (section_agree _ _ _ Hp), (section_agree _ _ _ Hc). reflexivity.
Qed.

Lemma build_prompt_reads_only_its_fields_witness :
  build_prompt
    [<[lit "score" := lit "7"]>
       (<[lit "title" := lit "Hello"]> (<[lit "body" := lit "World"]> ∅))]
    [<[lit "id" := lit "t1_abc"]> (<[lit "body" := lit "Nice!"]> ∅)]
    (lit "kojied")
  = build_prompt
      [<[lit "title" := lit "Hello"]> (<[lit "body" := lit "World"]> ∅)]
      [<[lit "body" := lit "Nice!"]> ∅] (lit "kojied").
Proof.
  apply build_prompt_reads_only_its_fields.
  - constructor; [|constructor].
    intros k [<-|[<-|[]]]; vm_compute; reflexivity.
  - constructor; [|constructor].
    intros k [<-|[]]; vm_compute; reflexivity.
Defined.

(** ** The run and its effects *)

(** Facts read off an explicit trace. *)
Ltac trace_facts :=
  simpl; repeat split;
  first [ reflexivity
        | solve [simpl; auto 12]
        | solve [repeat constructor] ].

Lemma fetch_user_content_cases (w : world) (reddit : reddit_instance)
  (username : str) (post_limit comment_limit : Z) :
  let fetch := fetch_user_content w reddit username post_limit comment_limit in
  Forall fetch_event (trace fetch)
  /\ match fetch_failure w username post_limit comment_limit with
     | None =>
         outcome fetch
         = Ok (gathered_posts w username post_limit,
               gathered_comments w username post_limit comment_limit)
     | Some e =>
         if is_Exception e then
           outcome fetch
           = Ok (gathered_posts w username post_limit,
                 gathered_comments w username post_limit comment_limit)
           /\ In (Log ERROR true (ErrorFetching username e)) (trace fetch)
         else outcome fetch = Raise e
     end.
Proof.
  unfold fetch_user_content, fetch_block, fetch_failure, gathered_posts,
    gathered_comments, for_append.
  destruct (redditor w username) as [e|].
  - destruct (is_Exception e) eqn:He; simpl; rewrite He; simpl;
      trace_facts.
  - destruct (failure (submissions_new w username post_limit)) as [e|].
    + destruct (is_Exception e) eqn:He; simpl; rewrite He; simpl;
        trace_facts.
    + destruct (failure (comments_new w username comment_limit)) as [e|].
      * destruct (is_Exception e) eqn:He; simpl; rewrite He; simpl;
          trace_facts.
      * trace_facts.
Qed.

(** C6.  Whatever error the platform raises during the fetch (every such
    error is an [Exception]), [fetch_user_content] returns, with the posts
    and the comments gathered before it, and logs the error: nothing is
    propagated. *)
Theorem fetch_user_content_swallows_errors (w : world)
  (reddit : reddit_instance) (username : str) (post_limit comment_limit : Z) :
  (forall e,
     fetch_failure w username post_limit comment_limit = Some e ->
     is_Exception e = true) ->
  outcome (fetch_user_content w reddit username post_limit comment_limit)
  = Ok (gathered_posts w username post_limit,
        gathered_comments w username post_limit comment_limit)
  /\ forall e,
       fetch_failure w username post_limit comment_limit = Some e ->
       In (Log ERROR true (ErrorFetching username e))
         (trace (fetch_user_content w reddit username post_limit
                   comment_limit)).
Proof.
  intros Herr.
  destruct (fetch_user_content_cases w reddit username post_limit
              comment_limit) as [_ H].
  destruct (fetch_failure w username post_limit comment_limit) as [e|].
  - rewrite (Herr e eq_refl) in H. destruct H as [Ho Ht].
    split; [exact Ho|]. intros e' [= <-]. exact Ht.
  - split; [exact H|]. discriminate.
Qed.

Lemma fetch_user_content_swallows_errors_witness :
  let w := {| getenv := fun _ => Some (lit "secret");
              redditor := fun _ => None;
              submissions_new := fun _ _ =>
                {| yielded := [(lit "Hello", lit "World")];
                   failure := Some TooManyRequests |};
              comments_new := fun _ _ =>
                {| yielded := [lit "Nice!"]; failure := None |};
              generate_content := fun _ _ => Ok (lit "Personality: friendly");
              write_file := fun _ _ => None |} in
  let reddit := {| client_id := lit "id"; client_secret := lit "secret";
                   user_agent := lit "agent" |} in
  outcome (fetch_user_content w reddit (lit "kojied") 1 1)
  = Ok ([post_item (lit "Hello", lit "World")], [])
  /\ forall e,
       fetch_failure w (lit "kojied") 1 1 = Some e ->
       In (Log ERROR true (ErrorFetching (lit "kojied") e))
         (trace (fetch_user_content w reddit (lit "kojied") 1 1)).
Proof.
  intros w reddit.
  apply (fetch_user_content_swallows_errors w reddit (lit "kojied") 1 1).
  intros e [= <-]. reflexivity.
Defined.

Arguments fetch_user_content : simpl never.
Arguments call_gemini_api : simpl never.
Arguments save_persona : simpl never.
Arguments build_prompt : simpl never.

Lemma fetch_event_not_later (t : list event) (ev : event) :
  Forall fetch_event t -> ~ fetch_event ev -> ~ In ev t.
Proof.
  rewrite List.Forall_forall. intros H Hev Hin. apply Hev, H, Hin.
Qed.

(** C3.  When the fetch yields no post and no comment, the run ends with
    exit code 1, and neither the prompt builder nor the generator was
    entered: the trace holds no call of [build_prompt] or
    [call_gemini_api] and no request to the generative service. *)
Theorem run_without_content (w : world) (username : str)
  (post_limit comment_limit : Z) :
  (forall reddit,
     outcome (fetch_user_content w reddit username post_limit comment_limit)
     = Ok ([], [])) ->
  outcome (run w username post_limit comment_limit) = Raise (SystemExit 1)
  /\ exit_code (run w username post_limit comment_limit) = 1%Z
  /\ ~ In (Call f_build_prompt)
         (trace (run w username post_limit comment_limit))
  /\ ~ In (Call f_call_gemini_api)
         (trace (run w username post_limit comment_limit))
  /\ forall model prompt,
       ~ In (Generate model prompt)
           (trace (run w username post_limit comment_limit)).
Proof.
  intros Hempty. unfold exit_code, run, load_reddit_instance.
  destruct (negb (forallb truthy _)).
  - simpl. repeat split; try intros model prompt; intros H;
      repeat (destruct H as [H|H]; try discriminate); exact H.
  - simpl.
    match goal with
    | |- context [fetch_user_content w ?r _ _ _] =>
        pose proof (Hempty r) as Ho;
        pose proof (fetch_user_content_cases w r username post_limit
                      comment_limit) as [Ht _];
        destruct (fetch_user_content w r username post_limit comment_limit)
          as [t res]
    end.
    simpl in Ho, Ht. subst res. simpl.
    assert (Hlater : forall ev,
              ~ fetch_event ev ->
              ev <> Log ERROR false (NoContent username) ->
              ev <> Call f_run -> ev <> Call f_load_reddit_instance ->
              ~ In ev (Call f_run :: Call f_load_reddit_instance
                         :: t ++ [Log ERROR false (NoContent username)])).
    { intros ev Hev H1 H2 H3 [H|[H|H]]; try congruence.
      apply in_app_or in H as [H|[H|[]]]; [|congruence].
      exact (fetch_event_not_later t ev Ht Hev H). }
    repeat split; try intros model prompt; apply Hlater;
      simpl; try tauto; discriminate.
Qed.

Lemma run_without_content_witness :
  let w := {| getenv := fun _ => Some (lit "secret");
              redditor := fun _ => None;
              submissions_new := fun _ _ =>
                {| yielded := []; failure := None |};
              comments_new := fun _ _ =>
                {| yielded := []; failure := Some NotFound |};
              generate_content := fun _ _ => Ok (lit "Personality: friendly");
              write_file := fun _ _ => None |} in
  outcome (run w (lit "kojied") 20 20) = Raise (SystemExit 1)
  /\ exit_code (run w (lit "kojied") 20 20) = 1%Z
  /\ ~ In (Call f_build_prompt) (trace (run w (lit "kojied") 20 20))
  /\ ~ In (Call f_call_gemini_api) (trace (run w (lit "kojied") 20 20))
  /\ forall model prompt,
       ~ In (Generate model prompt) (trace (run w (lit "kojied") 20 20)).
Proof.
  intros w. apply (run_without_content w (lit "kojied") 20 20).
  intros reddit. reflexivity.
Defined.

Lemma call_gemini_api_no_save (w : world) (prompt : str) :
  ~ In (Call f_save_persona) (trace (call_gemini_api w prompt)).
Proof.
  unfold call_gemini_api.
  destruct (negb (truthy _)); simpl.
  - intros H. repeat (destruct H as [H|H]; try discriminate). exact H.
  - destruct (generate_content w MODEL_NAME prompt) as [text|e]; simpl.
    + intros H. repeat (destruct H as [H|H]; try discriminate). exact H.
    + destruct (is_Exception e); simpl; intros H;
        repeat (destruct H as [H|H]; try discriminate); exact H.
Qed.

Lemma save_persona_cases (w : world) (username persona : str) :
  match write_file w (username ++ lit "_persona.txt")
          (post_process_persona persona) with
  | None => outcome (save_persona w username persona) = Ok tt
  | Some e =>
      if is_IOError e then
        outcome (save_persona w username persona) = Ok tt
        /\ In (Log ERROR true (WriteFailed e))
             (trace (save_persona w username persona))
      else outcome (save_persona w username persona) = Raise e
  end.
Proof.
  unfold save_persona.
  destruct (write_file w _ _) as [e|]; [|reflexivity].
  destruct (is_IOError e) eqn:He; simpl; rewrite He; trace_facts.
Qed.

Lemma run_reaching_save_returns (w : world) (username : str)
  (post_limit comment_limit : Z) :
  (forall persona, outcome (save_persona w username persona) = Ok tt) ->
  In (Call f_save_persona) (trace (run w username post_limit comment_limit)) ->
  outcome (run w username post_limit comment_limit) = Ok tt.
Proof.
  intros Hsaved. unfold run, load_reddit_instance.
  destruct (negb (forallb truthy _)); simpl.
  { intros H. repeat (destruct H as [H|H]; try discriminate). destruct H. }
  match goal with
  | |- context [fetch_user_content w ?r _ _ _] =>
      pose proof (fetch_user_content_cases w r username post_limit
                    comment_limit) as [Ht _];
      destruct (fetch_user_content w r username post_limit comment_limit)
        as [t res]
  end.
  simpl in Ht.
  assert (Hfetch : ~ In (Call f_save_persona) t)
    by (apply (fetch_event_not_later t _ Ht); simpl; tauto).
  destruct res as [[posts comments]|e]; simpl.
  2: { intros [H|[H|H]]; try discriminate. contradiction. }
  destruct (negb (truthy_list posts) && negb (truthy_list comments)); simpl.
  { intros [H|[H|H]]; try discriminate.
    apply in_app_or in H as [H|[H|[]]]; [contradiction|discriminate]. }
  rewrite build_prompt_template. simpl.
  match goal with
  | |- context [call_gemini_api w ?p] =>
      pose proof (call_gemini_api_no_save w p) as Hg;
      destruct (call_gemini_api w p) as [tg rg]
  end.
  simpl in Hg. destruct rg as [persona|e]; simpl.
  2: { intros [H|[H|H]]; try discriminate.
       apply in_app_or in H as [H|[H|[H|H]]];
         [contradiction|discriminate|discriminate|contradiction]. }
  specialize (Hsaved persona).
  destruct (save_persona w username persona) as [ts rs].
  simpl in Hsaved. subst rs. reflexivity.
Qed.

(** C8.  In a run that reaches the save step, an I/O error of the write is
    caught inside [save_persona], logged, and not propagated: the run
    returns and the process ends with exit code 0. *)
Theorem write_failure_is_not_fatal (w : world) (username : str)
  (post_limit comment_limit : Z) :
  In (Call f_save_persona) (trace (run w username post_limit comment_limit)) ->
  (forall filename contents e,
     write_file w filename contents = Some e -> is_IOError e = true) ->
  outcome (run w username post_limit comment_limit) = Ok tt
  /\ exit_code (run w username post_limit comment_limit) = 0%Z
  /\ forall persona e,
       write_file w (username ++ lit "_persona.txt")
         (post_process_persona persona) = Some e ->
       outcome (save_persona w username persona) = Ok tt
       /\ In (Log ERROR true (WriteFailed e))
            (trace (save_persona w username persona)).
Proof.
  intros Hsave Hio.
  assert (Hsaved : forall persona,
            outcome (save_persona w username persona) = Ok tt).
  { intros persona. pose proof (save_persona_cases w username persona) as H.
    destruct (write_file w _ _) as [e|] eqn:Hw; [|exact H].
    rewrite (Hio _ _ _ Hw) in H. apply H. }
  pose proof (run_reaching_save_returns w username post_limit comment_limit
                Hsaved Hsave) as Hrun.
  split; [exact Hrun|]. split.
  - unfold exit_code. rewrite Hrun. reflexivity.
  - intros persona e Hw.
    pose proof (save_persona_cases w username persona) as H.
    rewrite Hw, (Hio _ _ _ Hw) in H. exact H.
Qed.

Lemma write_failure_is_not_fatal_witness :
  let w := {| getenv := fun _ => Some (lit "secret");
              redditor := fun _ => None;
              submissions_new := fun _ _ =>
                {| yielded := [(lit "Hello", lit "World")];
                   failure := None |};
              comments_new := fun _ _ =>
                {| yielded := [lit "Nice!"]; failure := None |};
              generate_content := fun _ _ => Ok (lit "Personality: friendly");
              write_file := fun _ _ => Some (OSError (lit "No space left")) |} in
  outcome (run w (lit "kojied") 1 1) = Ok tt
  /\ exit_code (run w (lit "kojied") 1 1) = 0%Z
  /\ forall persona e,
       write_file w (lit "kojied" ++ lit "_persona.txt")
         (post_process_persona persona) = Some e ->
       outcome (save_persona w (lit "kojied") persona) = Ok tt
       /\ In (Log ERROR true (WriteFailed e))
            (trace (save_persona w (lit "kojied") persona)).
Proof.
  intros w. apply (write_failure_is_not_fatal w (lit "kojied") 1 1).
  - vm_compute. auto 20.
  - intros filename contents e [= <-]. reflexivity.
Defined.


(** The process is [main]: once the URL has given a user name, it is the
    run for that name, so what holds of the outcome and of the trace of the
    run holds of the process. *)
Lemma main_runs (unicode_alnum : char -> bool) (w : world) (url user : str)
  (posts comments : Z) :
  extract_username unicode_alnum url = Ok user ->
  outcome (main unicode_alnum w url posts comments)
  = outcome (run w user posts comments)
  /\ exit_code (main unicode_alnum w url posts comments)
     = exit_code (run w user posts comments)
  /\ trace (main unicode_alnum w url posts comments)
     = Call f_extract_username :: trace (run w user posts comments).
Proof.
  intros H. unfold exit_code, main. rewrite H.
  cbv beta iota delta [bind try_except emit lift].
  destruct (run w user posts comments) as [t [u|e]];
    repeat split; reflexivity.
Qed.

(** A URL the parser refuses ends the process with exit code 1 before any
    other function of the program is entered. *)
Lemma main_invalid_url (unicode_alnum : char -> bool) (w : world) (url : str)
  (posts comments : Z) (msg : str) :
  extract_username unicode_alnum url = Raise (ValueError msg) ->
  exit_code (main unicode_alnum w url posts comments) = 1%Z
  /\ trace (main unicode_alnum w url posts comments)
     = [Call f_extract_username;
        Log ERROR false (InvalidUrl (ValueError msg))].
Proof. intros H. unfold exit_code, main. rewrite H. split; reflexivity. Qed.

(** The end-to-end scenario of the specification: one post, one comment and
    a generator answering [Personality: friendly]; the file written is
    [kojied_persona.txt] and holds the bold heading. *)
Example end_to_end_scenario :
  let w := {| getenv := fun _ => Some (lit "secret");
              redditor := fun _ => None;
              submissions_new := fun _ _ =>
                {| yielded := [(lit "Hello", lit "World")];
                   failure := None |};
              comments_new := fun _ _ =>
                {| yielded := [lit "Nice!"]; failure := None |};
              generate_content := fun _ _ => Ok (lit "Personality: friendly");
              write_file := fun _ _ => None |} in
  let process :=
    main latin1_alnum w (lit "https://reddit.com/user/kojied/") 1 1 in
  exit_code process = 0%Z
  /\ In (OpenWrite (lit "kojied_persona.txt") (lit "**Personality:** friendly"))
       (trace process).
Proof. vm_compute. auto 20. Qed.

(** * Further properties of the pipeline *)

(** ** The run, case by case *)

Lemma call_gemini_api_eq (w : world) (prompt : str) :
  call_gemini_api w prompt
  = if negb (truthy (getenv w (lit "GEMINI_API_KEY"))) then
      ([Call f_call_gemini_api; Log ERROR false ApiKeyNotSet],
       Raise (SystemExit 1))
    else
      match generate_content w MODEL_NAME prompt with
      | Ok text =>
          ([Call f_call_gemini_api; Generate MODEL_NAME prompt],
           Ok (Py.strip text))
      | Raise e =>
          if is_Exception e then
            ([Call f_call_gemini_api; Generate MODEL_NAME prompt;
              Log ERROR true (ApiCallFailed e)],
             Raise (SystemExit 1))
          else
            ([Call f_call_gemini_api; Generate MODEL_NAME prompt], Raise e)
      end.
Proof.
  unfold call_gemini_api.
  destruct (negb (truthy _)); [reflexivity|].
  destruct (generate_content w MODEL_NAME prompt) as [text|e];
    [reflexivity|].
  simpl. destruct (is_Exception e); reflexivity.
Qed.

Lemma save_persona_eq (w : world) (username persona : str) :
  save_persona w username persona
  = let filename := username ++ lit "_persona.txt" in
    let contents := post_process_persona persona in
    let tried := [Call f_save_persona; Call f_post_process_persona;
                  OpenWrite filename contents] in
    match write_file w filename contents with
    | None => (tried ++ [Log INFO false (PersonaSaved filename)], Ok tt)
    | Some e =>
        if is_IOError e then
          (tried ++ [Log ERROR true (WriteFailed e)], Ok tt)
        else (tried, Raise e)
    end.
Proof.
  unfold save_persona. cbv zeta.
  destruct (write_file w _ _) as [e|]; [|reflexivity].
  simpl. destruct (is_IOError e); reflexivity.
Qed.

Lemma run_eq (w : world) (username : str) (post_limit comment_limit : Z) :
  run w username post_limit comment_limit
  = if negb (credentials_present w) then
      ([Call f_run; Call f_load_reddit_instance;
        Log ERROR false MissingCredentials],
       Raise (SystemExit 1))
    else
      match fetch_user_content w (reddit_of w) username post_limit
              comment_limit with
      | (t, Raise e) => (Call f_run :: Call f_load_reddit_instance :: t, Raise e)
      | (t, Ok (posts, comments)) =>
          if negb (truthy_list posts) && negb (truthy_list comments) then
            (Call f_run :: Call f_load_reddit_instance
               :: t ++ [Log ERROR false (NoContent username)],
             Raise (SystemExit 1))
          else
            match call_gemini_api w
                    (10 :: spec_prompt username
                             (section posts [lit "title"; lit "body"])
                             (section comments [lit "body"])) with
            | (tg, Raise e) =>
                (Call f_run :: Call f_load_reddit_instance
                   :: t ++ Call f_build_prompt :: Log INFO false CallingApi
                   :: tg,
                 Raise e)
            | (tg, Ok persona) =>
                (Call f_run :: Call f_load_reddit_instance
                   :: t ++ Call f_build_prompt :: Log INFO false CallingApi
                   :: tg ++ trace (save_persona w username persona),
                 outcome (save_persona w username persona))
            end
      end.
Proof.
  unfold run, load_reddit_instance, credentials_present.
  destruct (negb (forallb truthy _)); [reflexivity|].
  simpl. fold (reddit_of w).
  destruct (fetch_user_content w (reddit_of w) username post_limit
              comment_limit) as [t [[posts comments]|e]]; [|reflexivity].
  simpl.
  destruct (negb (truthy_list posts) && negb (truthy_list comments));
    [reflexivity|].
  rewrite build_prompt_template. simpl.
  destruct (call_gemini_api w _) as [tg [persona|e]]; [|reflexivity].
  simpl. destruct (save_persona w username persona) as [ts rs]. reflexivity.
Qed.

Lemma fetch_user_content_eq (w : world) (reddit : reddit_instance)
  (username : str) (post_limit comment_limit : Z) :
  fetch_user_content w reddit username post_limit comment_limit
  = let called := [Call f_fetch_user_content] in
    let asked_posts :=
      called ++ [Request (lit "submissions") username post_limit] in
    let asked_both :=
      asked_posts ++ [Request (lit "comments") username comment_limit] in
    let caught e := [Log ERROR true (ErrorFetching username e)] in
    let posts := gathered_posts w username post_limit in
    let comments := gathered_comments w username post_limit comment_limit in
    match redditor w username with
    | Some e =>
        if is_Exception e then (called ++ caught e, Ok (posts, comments))
        else (called, Raise e)
    | None =>
        match failure (submissions_new w username post_limit) with
        | Some e =>
            if is_Exception e
            then (asked_posts ++ caught e, Ok (posts, comments))
            else (asked_posts, Raise e)
        | None =>
            match failure (comments_new w username comment_limit) with
            | Some e =>
                if is_Exception e
                then (asked_both ++ caught e, Ok (posts, comments))
                else (asked_both, Raise e)
            | None =>
                (asked_both
                   ++ [Log INFO false
                         (Fetched (length posts) (length comments) username)],
                 Ok (posts, comments))
            end
        end
    end.
Proof.
  unfold fetch_user_content, fetch_block, gathered_posts, gathered_comments,
    for_append.
  destruct (redditor w username) as [e|].
  { simpl. destruct (is_Exception e); reflexivity. }
  destruct (failure (submissions_new w username post_limit)) as [e|].
  { simpl. destruct (is_Exception e); reflexivity. }
  destruct (failure (comments_new w username comment_limit)) as [e|].
  { simpl. destruct (is_Exception e); reflexivity. }
  reflexivity.
Qed.

(** Membership in an explicit trace, down to the part a fetch left. *)
Ltac in_trace H :=
  simpl in H;
  repeat first [ apply in_app_or in H as [H|H] | destruct H as [H|H] ];
  try discriminate; try contradiction.

(** An event that no part of an explicit trace can be, the part a fetch
    left ([Hq]) included. *)
Ltac absent Hq :=
  let H := fresh "Hin" in
  solve [intros H; in_trace H; exfalso; exact (Hq _ H)].

Lemma fetch_trace_quiet (w : world) (reddit : reddit_instance)
  (username : str) (post_limit comment_limit : Z) (ev : event) :
  In ev (trace (fetch_user_content w reddit username post_limit comment_limit)) ->
  fetch_event ev.
Proof.
  destruct (fetch_user_content_cases w reddit username post_limit
              comment_limit) as [H _].
  rewrite List.Forall_forall in H. apply H.
Qed.

(** ** Configuration errors *)

(** X1.  When one of the three platform credentials is missing or empty,
    the run logs the error and exits with status 1 at once: its whole trace
    is the entry into [run] and [load_reddit_instance] and that log record,
    so nothing is asked of the platform, the generator or the file system. *)
Theorem run_missing_credentials (w : world) (username : str)
  (post_limit comment_limit : Z) (name : str) :
  In name [lit "REDDIT_CLIENT_ID"; lit "REDDIT_CLIENT_SECRET";
           lit "REDDIT_USER_AGENT"] ->
  truthy (getenv w name) = false ->
  trace (run w username post_limit comment_limit)
  = [Call f_run; Call f_load_reddit_instance;
     Log ERROR false MissingCredentials]
  /\ outcome (run w username post_limit comment_limit) = Raise (SystemExit 1)
  /\ exit_code (run w username post_limit comment_limit) = 1%Z.
Proof.
  intros Hname Hmissing.
  assert (Hc : credentials_present w = false).
  { unfold credentials_present. apply not_true_is_false. intros Hall.
    rewrite forallb_forall in Hall.
    assert (truthy (getenv w name) = true); [|congruence].
    apply Hall. simpl in Hname. simpl.
    destruct Hname as [<-|[<-|[<-|[]]]]; auto. }
  unfold exit_code. rewrite run_eq, Hc. simpl. auto.
Qed.

Lemma run_missing_credentials_witness :
  let w := {| getenv := fun name =>
                if bool_decide (name = lit "REDDIT_USER_AGENT") then Some []
                else Some (lit "secret");
              redditor := fun _ => None;
              submissions_new := fun _ _ =>
                {| yielded := [(lit "Hello", lit "World")];
                   failure := None |};
              comments_new := fun _ _ =>
                {| yielded := [lit "Nice!"]; failure := None |};
              generate_content := fun _ _ => Ok (lit "Personality: friendly");
              write_file := fun _ _ => None |} in
  trace (run w (lit "kojied") 20 20)
  = [Call f_run; Call f_load_reddit_instance;
     Log ERROR false MissingCredentials]
  /\ outcome (run w (lit "kojied") 20 20) = Raise (SystemExit 1)
  /\ exit_code (run w (lit "kojied") 20 20) = 1%Z.
Proof.
  intros w.
  apply (run_missing_credentials w (lit "kojied") 20 20
           (lit "REDDIT_USER_AGENT")).
  - simpl. auto.
  - reflexivity.
Defined.

(** X2.  When the generative-API key is missing or empty, the run makes no
    generation request and writes no file, and it does not return: it ends
    by an exception ([SystemExit 1] from [call_gemini_api] when the run gets
    that far). *)
Theorem run_without_api_key (w : world) (username : str)
  (post_limit comment_limit : Z) :
  truthy (getenv w (lit "GEMINI_API_KEY")) = false ->
  (forall model prompt,
     ~ In (Generate model prompt)
         (trace (run w username post_limit comment_limit)))
  /\ (forall filename contents,
        ~ In (OpenWrite filename contents)
            (trace (run w username post_limit comment_limit)))
  /\ raised (outcome (run w username post_limit comment_limit))
  /\ (In (Call f_call_gemini_api)
        (trace (run w username post_limit comment_limit)) ->
      outcome (run w username post_limit comment_limit)
      = Raise (SystemExit 1)
      /\ In (Log ERROR false ApiKeyNotSet)
           (trace (run w username post_limit comment_limit))).
Proof.
  intros Hkey. rewrite run_eq.
  pose proof (fetch_trace_quiet w (reddit_of w) username post_limit
                comment_limit) as Hq.
  destruct (negb (credentials_present w)); simpl;
    [split; [|split; [|split]];
     [intros ? ?; absent Hq|intros ? ?; absent Hq|exact I|absent Hq]|].
  destruct (fetch_user_content w (reddit_of w) username post_limit
              comment_limit) as [t [[posts comments]|e]]; simpl in Hq;
    [|split; [|split; [|split]];
      [intros ? ?; absent Hq|intros ? ?; absent Hq|exact I|absent Hq]].
  destruct (negb (truthy_list posts) && negb (truthy_list comments)); simpl;
    [split; [|split; [|split]];
     [intros ? ?; absent Hq|intros ? ?; absent Hq|exact I|absent Hq]|].
  rewrite call_gemini_api_eq, Hkey. simpl.
  split; [|split; [|split]];
    [intros ? ?; absent Hq|intros ? ?; absent Hq|exact I|].
  intros _. split; [reflexivity|].
  right. right. apply in_or_app. right. simpl. auto 10.
Qed.

Lemma run_without_api_key_witness :
  let w := {| getenv := fun name =>
                if bool_decide (name = lit "GEMINI_API_KEY") then None
                else Some (lit "secret");
              redditor := fun _ => None;
              submissions_new := fun _ _ =>
                {| yielded := [(lit "Hello", lit "World")];
                   failure := None |};
              comments_new := fun _ _ =>
                {| yielded := [lit "Nice!"]; failure := None |};
              generate_content := fun _ _ => Ok (lit "Personality: friendly");
              write_file := fun _ _ => None |} in
  (forall model prompt,
     ~ In (Generate model prompt) (trace (run w (lit "kojied") 20 20)))
  /\ (forall filename contents,
        ~ In (OpenWrite filename contents)
            (trace (run w (lit "kojied") 20 20)))
  /\ raised (outcome (run w (lit "kojied") 20 20))
  /\ (In (Call f_call_gemini_api) (trace (run w (lit "kojied") 20 20)) ->
      outcome (run w (lit "kojied") 20 20) = Raise (SystemExit 1)
      /\ In (Log ERROR false ApiKeyNotSet)
           (trace (run w (lit "kojied") 20 20))).
Proof.
  intros w. apply (run_without_api_key w (lit "kojied") 20 20). reflexivity.
Defined.

(** ** What a run writes, and how it ends *)

Lemma fetch_outcome_Ok (w : world) (reddit : reddit_instance)
  (username : str) (post_limit comment_limit : Z)
  (posts comments : list dict) :
  outcome (fetch_user_content w reddit username post_limit comment_limit)
  = Ok (posts, comments) ->
  posts = gathered_posts w username post_limit
  /\ comments = gathered_comments w username post_limit comment_limit.
Proof.
  rewrite fetch_user_content_eq. cbv zeta.
  destruct (redditor w username) as [e|];
    [destruct (is_Exception e); simpl; [intros [= <- <-]; auto|discriminate]|].
  destruct (failure (submissions_new w username post_limit)) as [e|];
    [destruct (is_Exception e); simpl; [intros [= <- <-]; auto|discriminate]|].
  destruct (failure (comments_new w username comment_limit)) as [e|];
    [destruct (is_Exception e); simpl; [intros [= <- <-]; auto|discriminate]|].
  simpl. intros [= <- <-]. auto.
Qed.

(** X3.  A run writes a file only as the last step of a complete pipeline:
    when its trace holds a write, the credentials and the API key were
    present, the fetch gathered at least one item, the generator returned a
    text for the prompt built from exactly what was gathered, the file is
    [<username>_persona.txt] and its contents are that text, trimmed and
    with its headings made bold. *)
Theorem written_file_provenance (w : world) (username : str)
  (post_limit comment_limit : Z) (filename contents : str) :
  In (OpenWrite filename contents)
    (trace (run w username post_limit comment_limit)) ->
  let posts := gathered_posts w username post_limit in
  let comments := gathered_comments w username post_limit comment_limit in
  credentials_present w = true
  /\ truthy (getenv w (lit "GEMINI_API_KEY")) = true
  /\ (posts <> [] \/ comments <> [])
  /\ exists prompt text,
       build_prompt posts comments username = Ok prompt
       /\ generate_content w MODEL_NAME prompt = Ok text
       /\ filename = username ++ lit "_persona.txt"
       /\ contents = post_process_persona (Py.strip text).
Proof.
  rewrite run_eq.
  pose proof (fetch_trace_quiet w (reddit_of w) username post_limit
                comment_limit) as Hq.
  pose proof (fetch_outcome_Ok w (reddit_of w) username post_limit
                comment_limit) as Hok.
  destruct (credentials_present w); simpl; [|absent Hq].
  destruct (fetch_user_content w (reddit_of w) username post_limit
              comment_limit) as [t [[posts comments]|e]];
    simpl in Hq, Hok; [|absent Hq].
  destruct (Hok posts comments eq_refl) as [<- <-]. clear Hok.
  destruct posts as [|p posts]; [destruct comments as [|c comments]|];
    simpl; [absent Hq| |].
  all: rewrite call_gemini_api_eq.
  all: destruct (truthy (getenv w (lit "GEMINI_API_KEY"))); simpl;
    [|absent Hq].
  all: match goal with
       | |- context [generate_content ?w' MODEL_NAME ?p] =>
           destruct (generate_content w' MODEL_NAME p) as [text|e] eqn:Hgen;
           [|destruct (is_Exception e); absent Hq]
       end.
  all: rewrite save_persona_eq; cbv zeta.
  all: intros Hin.
  all: assert (Hw : filename = username ++ lit "_persona.txt"
                    /\ contents = post_process_persona (Py.strip text))
       by (destruct (write_file w _ _) as [e|];
           [destruct (is_IOError e)|];
           in_trace Hin; try (exfalso; exact (Hq _ Hin));
           injection Hin as <- <-; auto).
  all: repeat split; try (right; discriminate); try (left; discriminate).
  all: eexists _, text; rewrite build_prompt_template;
    repeat split; try apply Hw; exact Hgen.
Qed.

Lemma written_file_provenance_witness :
  let w := {| getenv := fun _ => Some (lit "secret");
              redditor := fun _ => None;
              submissions_new := fun _ _ =>
                {| yielded := [(lit "Hello", lit "World")];
                   failure := None |};
              comments_new := fun _ _ =>
                {| yielded := [lit "Nice!"]; failure := Some Forbidden |};
              generate_content := fun _ _ =>
                Ok (lit "  Personality: friendly ");
              write_file := fun _ _ => None |} in
  let posts := gathered_posts w (lit "kojied") 1 in
  let comments := gathered_comments w (lit "kojied") 1 1 in
  credentials_present w = true
  /\ truthy (getenv w (lit "GEMINI_API_KEY")) = true
  /\ (posts <> [] \/ comments <> [])
  /\ exists prompt text,
       build_prompt posts comments (lit "kojied") = Ok prompt
       /\ generate_content w MODEL_NAME prompt = Ok text
       /\ lit "kojied_persona.txt" = lit "kojied" ++ lit "_persona.txt"
       /\ lit "**Personality:** friendly"
          = post_process_persona (Py.strip text).
Proof.
  intros w.
  apply (written_file_provenance w (lit "kojied") 1 1
           (lit "kojied_persona.txt") (lit "**Personality:** friendly")).
  vm_compute. auto 20.
Defined.

Lemma fetch_user_content_swallows_errors_aux (w : world)
  (reddit : reddit_instance) (username : str) (post_limit comment_limit : Z) :
  (forall e,
     fetch_failure w username post_limit comment_limit = Some e ->
     is_Exception e = true) ->
  exists t,
    fetch_user_content w reddit username post_limit comment_limit
    = (t, Ok (gathered_posts w username post_limit,
              gathered_comments w username post_limit comment_limit))
    /\ Forall fetch_event t.
Proof.
  intros Herr.
  destruct (fetch_user_content_cases w reddit username post_limit
              comment_limit) as [Ht H].
  destruct (fetch_user_content w reddit username post_limit comment_limit)
    as [t r]. simpl in Ht, H. exists t. split; [|exact Ht]. f_equal.
  destruct (fetch_failure w username post_limit comment_limit) as [e|];
    [|exact H].
  rewrite (Herr e eq_refl) in H. apply H.
Qed.

(** X4.  When the errors of the three services are ordinary ones (the
    platform and the generator raise [Exception]s, the file system
    [IOError]s), a run ends with status 0 or 1, and with 0 exactly when
    the credentials and the API key are present, the fetch gathered at
    least one item and the generator returned a text. *)
Theorem run_exit_status (w : world) (username : str)
  (post_limit comment_limit : Z) :
  (forall e,
     fetch_failure w username post_limit comment_limit = Some e ->
     is_Exception e = true) ->
  (forall prompt e,
     generate_content w MODEL_NAME prompt = Raise e -> is_Exception e = true) ->
  (forall filename contents e,
     write_file w filename contents = Some e -> is_IOError e = true) ->
  let posts := gathered_posts w username post_limit in
  let comments := gathered_comments w username post_limit comment_limit in
  let status := exit_code (run w username post_limit comment_limit) in
  (status = 0%Z \/ status = 1%Z)
  /\ (status = 0%Z <->
      credentials_present w = true
      /\ truthy (getenv w (lit "GEMINI_API_KEY")) = true
      /\ (posts <> [] \/ comments <> [])
      /\ exists prompt text,
           build_prompt posts comments username = Ok prompt
           /\ generate_content w MODEL_NAME prompt = Ok text).
Proof.
  intros Hfetch Hgen Hwrite. cbv zeta. unfold exit_code.
  rewrite run_eq.
  destruct (fetch_user_content_swallows_errors_aux w (reddit_of w) username
              post_limit comment_limit Hfetch) as (t & Ht & Hq).
  destruct (credentials_present w); simpl;
    [|split; [auto|split; [discriminate|intros (H & _); discriminate]]].
  rewrite Ht.
  destruct (gathered_posts w username post_limit) as [|p posts];
    [destruct (gathered_comments w username post_limit comment_limit)
       as [|c comments]|]; simpl.
  { split; [auto|]. split; [discriminate|].
    intros (_ & _ & [H|H] & _); contradiction. }
  all: rewrite call_gemini_api_eq.
  all: destruct (truthy (getenv w (lit "GEMINI_API_KEY"))); simpl;
    [|split; [auto|split; [discriminate|intros (_ & H & _); discriminate]]].
  all: rewrite build_prompt_template.
  all: match goal with
       | |- context [generate_content ?w' MODEL_NAME ?p] =>
           destruct (generate_content w' MODEL_NAME p) as [text|e] eqn:Hg
       end.
  2, 4: rewrite (Hgen _ _ Hg); simpl;
    (split; [auto|split; [discriminate|]]);
    intros (_ & _ & _ & prompt & text' & [= <-] & Hg');
    rewrite Hg in Hg'; discriminate.
  all: rewrite save_persona_eq; cbv zeta.
  all: destruct (write_file w _ _) as [e|] eqn:Hw;
    [rewrite (Hwrite _ _ _ Hw)|]; simpl.
  all: split; [auto|split; [intros _|reflexivity]].
  all: repeat split; try (left; discriminate); try (right; discriminate).
  all: eexists _, text; split; [reflexivity|exact Hg].
Qed.

Lemma run_exit_status_witness :
  let w := {| getenv := fun _ => Some (lit "secret");
              redditor := fun _ => None;
              submissions_new := fun _ _ =>
                {| yielded := [(lit "Hello", lit "World")];
                   failure := Some TooManyRequests |};
              comments_new := fun _ _ =>
                {| yielded := [lit "Nice!"]; failure := None |};
              generate_content := fun _ _ => Ok (lit "Personality: friendly");
              write_file := fun _ _ => Some (OSError (lit "Read-only")) |} in
  let posts := gathered_posts w (lit "kojied") 5 in
  let comments := gathered_comments w (lit "kojied") 5 5 in
  let status := exit_code (run w (lit "kojied") 5 5) in
  (status = 0%Z \/ status = 1%Z)
  /\ (status = 0%Z <->
      credentials_present w = true
      /\ truthy (getenv w (lit "GEMINI_API_KEY")) = true
      /\ (posts <> [] \/ comments <> [])
      /\ exists prompt text,
           build_prompt posts comments (lit "kojied") = Ok prompt
           /\ generate_content w MODEL_NAME prompt = Ok text).
Proof.
  intros w. apply (run_exit_status w (lit "kojied") 5 5).
  - intros e [= <-]. reflexivity.
  - intros prompt e H. discriminate H.
  - intros filename contents e [= <-]. reflexivity.
Defined.

(** X5.  A run never repeats an effect: its trace holds at most one
    generation request, at most one file write and at most two requests to
    the platform (one listing of submissions, one of comments), whatever
    the services answer. *)
Theorem run_effects_at_most_once (w : world) (username : str)
  (post_limit comment_limit : Z) :
  let t := trace (run w username post_limit comment_limit) in
  (length (List.filter is_generate t) <= 1)%nat
  /\ (length (List.filter is_write t) <= 1)%nat
  /\ (length (List.filter is_request t) <= 2)%nat.
Proof.
  cbv zeta. rewrite run_eq, fetch_user_content_eq. cbv zeta.
  destruct (negb (credentials_present w)); [simpl; lia|].
  assert (Hrest : forall posts comments,
    let rest :=
      match call_gemini_api w
              (10 :: spec_prompt username
                       (section posts [lit "title"; lit "body"])
                       (section comments [lit "body"])) with
      | (tg, Raise e) => tg
      | (tg, Ok persona) => tg ++ trace (save_persona w username persona)
      end in
    (length (List.filter is_generate rest) <= 1)%nat
    /\ (length (List.filter is_write rest) <= 1)%nat
    /\ List.filter is_request rest = []).
  { intros posts comments. cbv zeta. rewrite call_gemini_api_eq.
    destruct (negb (truthy _)); [simpl; auto|].
    destruct (generate_content w MODEL_NAME _) as [text|e].
    - rewrite save_persona_eq. cbv zeta.
      destruct (write_file w _ _) as [e|]; [destruct (is_IOError e)|];
        simpl; auto.
    - destruct (is_Exception e); simpl; auto. }
  set (posts := gathered_posts w username post_limit) in *.
  set (comments := gathered_comments w username post_limit comment_limit)
    in *.
  specialize (Hrest posts comments). cbv zeta in Hrest.
  assert (Hstep : forall t0 : list event,
    List.filter is_generate t0 = [] -> List.filter is_write t0 = [] ->
    (length (List.filter is_request t0) <= 2)%nat ->
    let t :=
      trace
        (if negb (truthy_list posts) && negb (truthy_list comments) then
           (Call f_run :: Call f_load_reddit_instance
              :: t0 ++ [Log ERROR false (NoContent username)],
            Raise (SystemExit 1))
         else
           match call_gemini_api w
                   (10 :: spec_prompt username
                            (section posts [lit "title"; lit "body"])
                            (section comments [lit "body"])) with
           | (tg, Raise e) =>
               (Call f_run :: Call f_load_reddit_instance
                  :: t0 ++ Call f_build_prompt :: Log INFO false CallingApi
                  :: tg,
                Raise e)
           | (tg, Ok persona) =>
               (Call f_run :: Call f_load_reddit_instance
                  :: t0 ++ Call f_build_prompt :: Log INFO false CallingApi
                  :: tg ++ trace (save_persona w username persona),
                outcome (save_persona w username persona))
           end) in
    (length (List.filter is_generate t) <= 1)%nat
    /\ (length (List.filter is_write t) <= 1)%nat
    /\ (length (List.filter is_request t) <= 2)%nat).
  { intros t0 Hg Hw Hr. cbv zeta.
    destruct (negb (truthy_list posts) && negb (truthy_list comments)).
    - simpl. rewrite !List.filter_app, Hg, Hw. simpl.
      rewrite app_nil_r. repeat split; try lia.
    - destruct Hrest as (H1 & H2 & H3).
      destruct (call_gemini_api w _) as [tg [persona|e]]; simpl;
        rewrite !List.filter_app, Hg, Hw; simpl; rewrite H3, app_nil_r;
        auto. }
  destruct (redditor w username) as [e|];
    [destruct (is_Exception e); [apply Hstep; simpl; auto|simpl; lia]|].
  destruct (failure (submissions_new w username post_limit)) as [e|];
    [destruct (is_Exception e); [apply Hstep; simpl; auto|simpl; lia]|].
  destruct (failure (comments_new w username comment_limit)) as [e|];
    [destruct (is_Exception e); [apply Hstep; simpl; auto|simpl; lia]|].
  apply Hstep; simpl; auto.
Qed.

(** ** The fetcher and the writer on failure *)

(** X6.  The fetch stops at the first failure: when the listing of
    submissions raises, the comments are never requested and none is
    returned, while the posts yielded before the failure are kept. *)
Theorem fetch_stops_at_first_failure (w : world) (reddit : reddit_instance)
  (username : str) (post_limit comment_limit : Z) (e : exn) :
  redditor w username = None ->
  failure (submissions_new w username post_limit) = Some e ->
  let fetch := fetch_user_content w reddit username post_limit comment_limit in
  (forall limit, ~ In (Request (lit "comments") username limit) (trace fetch))
  /\ In (Request (lit "submissions") username post_limit) (trace fetch)
  /\ (is_Exception e = true ->
      outcome fetch
      = Ok (List.map post_item
              (yielded (submissions_new w username post_limit)), [])).
Proof.
  intros Hr Hf. cbv zeta. rewrite fetch_user_content_eq. cbv zeta.
  unfold gathered_posts, gathered_comments. rewrite Hr, Hf.
  destruct (is_Exception e); simpl.
  - split; [|split; [auto|reflexivity]].
    intros limit H. in_trace H.
  - split; [|split; [auto|discriminate]].
    intros limit H. in_trace H.
Qed.

Lemma fetch_stops_at_first_failure_witness :
  let w := {| getenv := fun _ => Some (lit "secret");
              redditor := fun _ => None;
              submissions_new := fun _ _ =>
                {| yielded := [(lit "Hello", lit "World"); (lit "Again", [])];
                   failure := Some RequestException |};
              comments_new := fun _ _ =>
                {| yielded := [lit "Nice!"]; failure := None |};
              generate_content := fun _ _ => Ok (lit "Personality: friendly");
              write_file := fun _ _ => None |} in
  let reddit := reddit_of w in
  let fetch := fetch_user_content w reddit (lit "kojied") 20 20 in
  (forall limit,
     ~ In (Request (lit "comments") (lit "kojied") limit) (trace fetch))
  /\ In (Request (lit "submissions") (lit "kojied") 20) (trace fetch)
  /\ (is_Exception RequestException = true ->
      outcome fetch
      = Ok ([post_item (lit "Hello", lit "World"); post_item (lit "Again", [])],
            [])).
Proof.
  intros w reddit.
  apply (fetch_stops_at_first_failure w reddit (lit "kojied") 20 20
           RequestException); reflexivity.
Defined.

(** X7.  An exception of the platform that is no [Exception]
    ([KeyboardInterrupt], [SystemExit]) is not swallowed: it leaves
    [fetch_user_content] without a log record, and with the credentials
    present it ends the run, before any prompt is built. *)
Theorem fetch_propagates_base_exceptions (w : world) (username : str)
  (post_limit comment_limit : Z) (e : exn) :
  fetch_failure w username post_limit comment_limit = Some e ->
  is_Exception e = false ->
  (forall reddit,
     outcome (fetch_user_content w reddit username post_limit comment_limit)
     = Raise e
     /\ forall lvl tb m,
          ~ In (Log lvl tb m)
              (trace (fetch_user_content w reddit username post_limit
                        comment_limit)))
  /\ (credentials_present w = true ->
      outcome (run w username post_limit comment_limit) = Raise e
      /\ ~ In (Call f_build_prompt)
             (trace (run w username post_limit comment_limit))).
Proof.
  intros Hf He.
  assert (Hfetch : forall reddit,
            exists t,
              fetch_user_content w reddit username post_limit comment_limit
              = (t, Raise e)
              /\ (forall lvl tb m, ~ In (Log lvl tb m) t)
              /\ ~ In (Call f_build_prompt) t).
  { intros reddit. rewrite fetch_user_content_eq. cbv zeta.
    unfold fetch_failure in Hf.
    destruct (redditor w username) as [e'|].
    { injection Hf as ->. rewrite He. eexists. split; [reflexivity|].
      split; [intros lvl tb m H|intros H]; in_trace H. }
    destruct (failure (submissions_new w username post_limit)) as [e'|].
    { injection Hf as ->. rewrite He. eexists. split; [reflexivity|].
      split; [intros lvl tb m H|intros H]; in_trace H. }
    rewrite Hf, He. eexists. split; [reflexivity|].
    split; [intros lvl tb m H|intros H]; in_trace H. }
  split.
  - intros reddit. destruct (Hfetch reddit) as (t & -> & Hlog & _).
    split; [reflexivity|exact Hlog].
  - intros Hc. rewrite run_eq, Hc. simpl.
    destruct (Hfetch (reddit_of w)) as (t & -> & _ & Hb). simpl.
    split; [reflexivity|]. intros H. in_trace H.
Qed.

Lemma fetch_propagates_base_exceptions_witness :
  let w := {| getenv := fun _ => Some (lit "secret");
              redditor := fun _ => None;
              submissions_new := fun _ _ =>
                {| yielded := [(lit "Hello", lit "World")];
                   failure := None |};
              comments_new := fun _ _ =>
                {| yielded := []; failure := Some KeyboardInterrupt |};
              generate_content := fun _ _ => Ok (lit "Personality: friendly");
              write_file := fun _ _ => None |} in
  (forall reddit,
     outcome (fetch_user_content w reddit (lit "kojied") 20 20)
     = Raise KeyboardInterrupt
     /\ forall lvl tb m,
          ~ In (Log lvl tb m)
              (trace (fetch_user_content w reddit (lit "kojied") 20 20)))
  /\ (credentials_present w = true ->
      outcome (run w (lit "kojied") 20 20) = Raise KeyboardInterrupt
      /\ ~ In (Call f_build_prompt) (trace (run w (lit "kojied") 20 20))).
Proof.
  intros w.
  apply (fetch_propagates_base_exceptions w (lit "kojied") 20 20
           KeyboardInterrupt); reflexivity.
Defined.

Lemma fetch_trace_logs (w : world) (reddit : reddit_instance)
  (username : str) (post_limit comment_limit : Z) (lvl : level) (tb : bool)
  (m : message) :
  In (Log lvl tb m)
    (trace (fetch_user_content w reddit username post_limit comment_limit)) ->
  (exists e, m = ErrorFetching username e)
  \/ (exists posts comments, m = Fetched posts comments username).
Proof.
  rewrite fetch_user_content_eq. cbv zeta.
  destruct (redditor w username) as [e|];
    [destruct (is_Exception e); intros H; in_trace H;
     injection H as <- <- <-; eauto|].
  destruct (failure (submissions_new w username post_limit)) as [e|];
    [destruct (is_Exception e); intros H; in_trace H;
     injection H as <- <- <-; eauto|].
  destruct (failure (comments_new w username comment_limit)) as [e|];
    [destruct (is_Exception e); intros H; in_trace H;
     injection H as <- <- <-; eauto|].
  intros H; in_trace H. injection H as <- <- <-; eauto.
Qed.

(** X8.  [save_persona] catches I/O errors only: in a run that reaches the
    save step, any other exception of the write (an encoding error, say)
    ends the run, and no failure is logged for it. *)
Theorem run_propagates_other_write_errors (w : world) (username : str)
  (post_limit comment_limit : Z) (e : exn) :
  In (Call f_save_persona) (trace (run w username post_limit comment_limit)) ->
  (forall filename contents, write_file w filename contents = Some e) ->
  is_IOError e = false ->
  outcome (run w username post_limit comment_limit) = Raise e
  /\ ~ In (Log ERROR true (WriteFailed e))
         (trace (run w username post_limit comment_limit)).
Proof.
  intros Hsave Hw He. revert Hsave. rewrite run_eq.
  pose proof (fetch_trace_quiet w (reddit_of w) username post_limit
                comment_limit) as Hq.
  pose proof (fetch_trace_logs w (reddit_of w) username post_limit
                comment_limit ERROR true (WriteFailed e)) as Hlog.
  destruct (negb (credentials_present w)); simpl; [absent Hq|].
  destruct (fetch_user_content w (reddit_of w) username post_limit
              comment_limit) as [t [[posts comments]|e']];
    simpl in Hq, Hlog; [|absent Hq].
  destruct (negb (truthy_list posts) && negb (truthy_list comments)); simpl;
    [absent Hq|].
  rewrite call_gemini_api_eq.
  destruct (negb (truthy _)); simpl; [absent Hq|].
  destruct (generate_content w MODEL_NAME _) as [text|e'];
    [|destruct (is_Exception e'); absent Hq].
  rewrite save_persona_eq. cbv zeta. rewrite Hw, He. simpl.
  intros _. split; [reflexivity|]. intros H. in_trace H.
  destruct (Hlog H) as [[? ?]|(? & ? & ?)]; discriminate.
Qed.

Lemma run_propagates_other_write_errors_witness :
  let w := {| getenv := fun _ => Some (lit "secret");
              redditor := fun _ => None;
              submissions_new := fun _ _ =>
                {| yielded := [(lit "Hello", lit "World")];
                   failure := None |};
              comments_new := fun _ _ =>
                {| yielded := [lit "Nice!"]; failure := None |};
              generate_content := fun _ _ => Ok (lit "Personality: friendly");
              write_file := fun _ _ =>
                Some (ValueError (lit "surrogates not allowed")) |} in
  outcome (run w (lit "kojied") 20 20)
  = Raise (ValueError (lit "surrogates not allowed"))
  /\ ~ In (Log ERROR true
             (WriteFailed (ValueError (lit "surrogates not allowed"))))
         (trace (run w (lit "kojied") 20 20)).
Proof.
  intros w.
  apply (run_propagates_other_write_errors w (lit "kojied") 20 20).
  - vm_compute. auto 20.
  - reflexivity.
  - reflexivity.
Defined.

(** ** The entry point *)

(** X9.  A URL with no occurrence of [reddit.com/user/] followed by a word
    character or hyphen ends the process with status 1 right after the
    parser: the error is logged, and neither the credentials are read nor
    any service asked. *)
Theorem main_rejects_invalid_url (unicode_alnum : char -> bool) (w : world)
  (url : str) (posts comments : Z) :
  ~ has_profile_occurrence unicode_alnum url ->
  trace (main unicode_alnum w url posts comments)
  = [Call f_extract_username;
     Log ERROR false
       (InvalidUrl (ValueError (lit "Invalid Reddit profile URL: " ++ url)))]
  /\ exit_code (main unicode_alnum w url posts comments) = 1%Z.
Proof.
  intros H.
  destruct (main_invalid_url unicode_alnum w url posts comments _
              (extract_username_Raise unicode_alnum url H)) as [Hc Ht].
  split; assumption.
Qed.

Lemma main_rejects_invalid_url_witness :
  let w := {| getenv := fun _ => Some (lit "secret");
              redditor := fun _ => None;
              submissions_new := fun _ _ =>
                {| yielded := [(lit "Hello", lit "World")];
                   failure := None |};
              comments_new := fun _ _ =>
                {| yielded := [lit "Nice!"]; failure := None |};
              generate_content := fun _ _ => Ok (lit "Personality: friendly");
              write_file := fun _ _ => None |} in
  trace (main latin1_alnum w (lit "https://reddit.com/u/kojied/") 20 20)
  = [Call f_extract_username;
     Log ERROR false
       (InvalidUrl
          (ValueError (lit "Invalid Reddit profile URL: "
                         ++ lit "https://reddit.com/u/kojied/")))]
  /\ exit_code (main latin1_alnum w (lit "https://reddit.com/u/kojied/") 20 20)
     = 1%Z.
Proof.
  intros w.
  apply (main_rejects_invalid_url latin1_alnum w
           (lit "https://reddit.com/u/kojied/") 20 20).
  intros H. destruct (extract_username_Ok latin1_alnum _ H) as [name Hn].
  vm_compute in Hn. discriminate Hn.
Defined.

(** ** The heading normaliser: what it adds *)

Lemma length_rewrite_line (l : str) :
  length (rewrite_line l)
  = (length l + if is_heading l then 4 else 0)%nat.
Proof.
  unfold rewrite_line, is_heading.
  destruct (match_heading l) as [[g rest]|] eqn:Hm; [|lia].
  apply match_heading_Some in Hm as (-> & _ & _).
  unfold repl. repeat (rewrite length_app; simpl). lia.
Qed.

Lemma length_join_rewrite (ls : list str) :
  ls <> [] ->
  length (Py.join [10] (List.map rewrite_line ls))
  = (length (Py.join [10%N] ls) + 4 * length (List.filter is_heading ls))%nat.
Proof.
  induction ls as [|l ls IH]; [contradiction|]. intros _.
  destruct ls as [|l' ls].
  - simpl. rewrite length_rewrite_line. destruct (is_heading l); simpl; lia.
  - change (length (rewrite_line l ++ [10]
                      ++ Py.join [10] (List.map rewrite_line (l' :: ls)))
            = (length (l ++ [10%N] ++ Py.join [10%N] (l' :: ls))
               + 4 * length (List.filter is_heading (l :: l' :: ls)))%nat).
    rewrite !length_app, IH by discriminate.
    rewrite length_rewrite_line. cbn [List.filter].
    destruct (is_heading l); simpl length; lia.
Qed.

(** X10.  The transform adds exactly four characters (the two pairs of
    asterisks) for each line that begins with a heading, and nothing
    else: the length of the result is the length of the text plus four
    times the number of such lines. *)
Theorem post_process_persona_length (text : str) :
  length (post_process_persona text)
  = (length text + 4 * count_headings text)%nat.
Proof.
  rewrite post_process_persona_lines, length_join_rewrite
    by apply lines_nonempty.
  rewrite join_lines. reflexivity.
Qed.

(** X11.  The texts the transform leaves unchanged are exactly those with
    no line beginning with a heading: a persona whose headings are already
    bold, or that has none, is written as it is. *)
Theorem post_process_persona_fixed_points (text : str) :
  post_process_persona text = text
  <-> Forall (fun l => ~ heading_line l) (Py.lines text).
Proof.
  split.
  - intros H. apply (f_equal (@length N)) in H.
    rewrite post_process_persona_length in H.
    assert (Hc : List.filter is_heading (Py.lines text) = []).
    { unfold count_headings in H.
      destruct (List.filter is_heading (Py.lines text));
        [reflexivity|simpl in H; lia]. }
    apply List.Forall_forall. intros l Hl.
    apply match_heading_None.
    destruct (match_heading l) as [p|] eqn:Hm; [|reflexivity].
    assert (Hin : In l (List.filter is_heading (Py.lines text))).
    { apply filter_In. split; [exact Hl|]. unfold is_heading.
      rewrite Hm. reflexivity. }
    rewrite Hc in Hin. destruct Hin.
  - intros H. rewrite post_process_persona_lines.
    rewrite <- (join_lines text) at 2. f_equal.
    rewrite <- (List.map_id (Py.lines text)) at 2.
    apply List.map_ext_in. intros l Hl.
    rewrite List.Forall_forall in H. unfold rewrite_line.
    rewrite (proj2 (match_heading_None l) (H l Hl)). reflexivity.
Qed.

(** ** White space *)

Lemma lstrip_head (s : str) (c : char) :
  hd_error (Py.lstrip s) = Some c -> Py.isspace c = false.
Proof.
  induction s as [|a s IH]; simpl; [discriminate|].
  destruct (Py.isspace a) eqn:Ha; [exact IH|].
  simpl. intros [= <-]. exact Ha.
Qed.

Lemma lstrip_suffix (s : str) :
  exists pre, s = pre ++ Py.lstrip s.
Proof.
  induction s as [|a s [pre IH]]; simpl; [exists []; reflexivity|].
  destruct (Py.isspace a).
  - exists (a :: pre). simpl. f_equal. exact IH.
  - exists []. reflexivity.
Qed.

Lemma rstrip_prefix (s : str) : exists suf, s = Py.rstrip s ++ suf.
Proof.
  unfold Py.rstrip. destruct (lstrip_suffix (rev s)) as [pre H].
  exists (rev pre). rewrite <- rev_app_distr, <- H, rev_involutive.
  reflexivity.
Qed.

Lemma strip_trimmed (s : str) : trimmed (Py.strip s).
Proof.
  unfold trimmed, Py.strip. split.
  - intros c Hc. destruct (rstrip_prefix (Py.lstrip s)) as [suf H].
    apply (lstrip_head s c). rewrite H.
    destruct (Py.rstrip (Py.lstrip s)); [discriminate|exact Hc].
  - intros c. unfold Py.rstrip. rewrite rev_involutive. apply lstrip_head.
Qed.

(** X12.  The text rendered for an item is a single trimmed line: it holds
    no newline and neither begins nor ends with white space, whatever the
    fields of the item hold. *)
Theorem clean_is_one_trimmed_line (item : dict) (key_names : list str) :
  trimmed (clean item key_names) /\ ~ In 10 (clean item key_names).
Proof.
  split; [apply strip_trimmed|].
  intros H. apply In_strip in H. apply (replace_no_newline _ H).
Qed.

(** X13.  The persona [call_gemini_api] returns is the text of the
    generator's response, trimmed: it neither begins nor ends with white
    space. *)
Theorem call_gemini_api_returns_trimmed (w : world) (prompt persona : str) :
  outcome (call_gemini_api w prompt) = Ok persona ->
  trimmed persona
  /\ exists text,
       generate_content w MODEL_NAME prompt = Ok text
       /\ persona = Py.strip text.
Proof.
  rewrite call_gemini_api_eq.
  destruct (negb (truthy _)); [discriminate|].
  destruct (generate_content w MODEL_NAME prompt) as [text|e].
  - simpl. intros [= <-]. split; [apply strip_trimmed|eauto].
  - destruct (is_Exception e); discriminate.
Qed.

Lemma call_gemini_api_returns_trimmed_witness :
  let w := {| getenv := fun _ => Some (lit "secret");
              redditor := fun _ => None;
              submissions_new := fun _ _ =>
                {| yielded := []; failure := None |};
              comments_new := fun _ _ =>
                {| yielded := []; failure := None |};
              generate_content := fun _ _ => Ok (9 :: lit " Tone: dry " ++ [10]);
              write_file := fun _ _ => None |} in
  trimmed (lit "Tone: dry")
  /\ exists text,
       generate_content w MODEL_NAME (lit "prompt") = Ok text
       /\ lit "Tone: dry" = Py.strip text.
Proof.
  intros w.
  apply (call_gemini_api_returns_trimmed w (lit "prompt") (lit "Tone: dry")).
  reflexivity.
Defined.

(** ** The URL parser: what it tolerates *)

(** X14.  The parser ignores what surrounds the profile path: for a
    non-empty name of word characters and hyphens, any prefix without the
    letter [r] (a scheme, [www.] or [old.]) and any rest that is empty or
    starts outside the class (a slash or its absence, a query, a dot), the
    name is returned. *)
Theorem extract_username_ignores_context (unicode_alnum : char -> bool)
  (pre name rest : str) :
  Forall (fun c => c <> 114) pre ->
  name <> [] ->
  forallb (is_name_char unicode_alnum) name = true ->
  match rest with
  | c :: _ => is_name_char unicode_alnum c = false
  | [] => True
  end ->
  extract_username unicode_alnum
    (pre ++ lit "reddit.com/user/" ++ name ++ rest)
  = Ok name.
Proof.
  intros Hpre Hne Hname Hrest. unfold extract_username.
  rewrite search_profile_skip by exact Hpre.
  rewrite (search_here _ _ name); [reflexivity|].
  apply match_profile_run; assumption.
Qed.

Lemma extract_username_ignores_context_witness :
  extract_username latin1_alnum
    (lit "http://old." ++ lit "reddit.com/user/" ++ lit "ko-jied_42"
       ++ lit "?sort=new")
  = Ok (lit "ko-jied_42").
Proof.
  apply (extract_username_ignores_context latin1_alnum (lit "http://old.")
           (lit "ko-jied_42") (lit "?sort=new")).
  - repeat constructor; discriminate.
  - discriminate.
  - reflexivity.
  - reflexivity.
Defined.

(** ** The prompt builder: fields and size *)

Lemma post_item_title (sub : str * str) :
  post_item sub !! lit "title" = Some (fst sub).
Proof. unfold post_item. apply lookup_insert_eq. Qed.

Lemma post_item_body (sub : str * str) :
  post_item sub !! lit "body" = Some (snd sub).
Proof.
  unfold post_item. rewrite lookup_insert_ne by (vm_compute; discriminate).
  apply lookup_insert_eq.
Qed.

(** X15.  A field that is empty contributes nothing to the text of an
    item, not even a separator: a post is rendered from its title and its
    body joined by one space when both are non-empty, from the one that is
    non-empty otherwise; a comment from its body. *)
Theorem snippet_of_fetched_items (title body : str) :
  snippet (post_item (title, body)) [lit "title"; lit "body"]
  = match title, body with
    | [], _ => body
    | _, [] => title
    | _, _ => title ++ 32 :: body
    end
  /\ snippet (comment_item body) [lit "body"] = body.
Proof.
  unfold snippet. cbn [List.filter].
  rewrite post_item_title, post_item_body.
  unfold comment_item. rewrite lookup_insert_eq.
  destruct title as [|a title], body as [|b body]; split; reflexivity.
Qed.

Lemma length_truncate (text : str) :
  (length (truncate text) <= 301)%nat
  /\ (length (truncate text) <= length text)%nat.
Proof.
  destruct (Nat.le_gt_cases (length text) 300) as [H|H].
  - rewrite (truncate_short text H). lia.
  - destruct (truncate_long text H) as (kept & tail & -> & E & Hk & _).
    rewrite length_app. simpl. lia.
Qed.

Lemma length_section (items : list dict) (key_names : list str) :
  (length (section items key_names) <= 304 * length items)%nat.
Proof.
  unfold section. induction items as [|item items IH]; [simpl; lia|].
  assert (Hline : (length (render_item item key_names) <= 303)%nat).
  { unfold render_item. rewrite length_app.
    pose proof (length_truncate (clean item key_names)).
    change (length (lit "- ")) with 2%nat. lia. }
  destruct items as [|item' items].
  - cbn [List.map Py.join length]. lia.
  - change (Py.join [10]
              (List.map (fun item => render_item item key_names)
                 (item :: item' :: items)))
      with (render_item item key_names ++ [10]
              ++ Py.join [10]
                   (List.map (fun item => render_item item key_names)
                      (item' :: items))).
    rewrite !length_app. cbn [length] in *. lia.
Qed.

Lemma length_spec_prompt (username posts_section comments_section : str) :
  length (spec_prompt username posts_section comments_section)
  = (443 + 2 * length username + length posts_section
     + length comments_section)%nat.
Proof.
  unfold spec_prompt. rewrite !length_app.
  repeat match goal with
         | |- context [length (lit ?s)] =>
             let n := eval vm_compute in (length (lit s)) in
             change (length (lit s)) with n
         end.
  lia.
Qed.

(** X16.  The truncation bounds the prompt: every item takes at most 303
    characters of it (the bullet, at most 300 characters of text, the
    marker) and one separator, so the prompt has at most 444 characters of
    template, twice the user name and 304 characters per post and per
    comment; and a cut text is never longer than the text it replaces. *)
Theorem build_prompt_size (posts comments : list dict) (username : str) :
  (exists prompt,
     build_prompt posts comments username = Ok prompt
     /\ (length prompt
         <= 444 + 2 * length username
            + 304 * (length posts + length comments))%nat)
  /\ (forall item key_names,
        (length (render_item item key_names) <= 303)%nat
        /\ (length (truncate (clean item key_names))
            <= length (clean item key_names))%nat).
Proof.
  split.
  - eexists. split; [apply build_prompt_template|].
    cbn [length]. rewrite length_spec_prompt.
    pose proof (length_section posts [lit "title"; lit "body"]).
    pose proof (length_section comments [lit "body"]). lia.
  - intros item key_names.
    pose proof (length_truncate (clean item key_names)) as [H1 H2].
    split; [|exact H2].
    unfold render_item. rewrite length_app.
    change (length (lit "- ")) with 2%nat. lia.
Qed.
